(** * temporal-slab: the benchmark plotting pipeline of [tools/plot_bench.py]

    A shallow embedding of the loader, the classifier, the statistics that
    the renderers derive and the orchestrator [main], followed by the
    properties of the specification that were checked against it.

    Conventions of the embedding.
    - A Record (one [csv.DictReader] row) is a finite map from field names to
      raw string values: [gmap string string].
    - Python [int] is [Z]; Python [float] is the kernel's binary64 [float],
      whose operations round to nearest-even as Python's do.
    - A function that prints, saves a figure or raises is a computation in
      the monad [io]: the events it emitted, in order, and how it ended
      (a value or the exception that escaped).
    - [numpy.mean] belongs to an external library; the pipeline is
      parametric in it (Section variable [np_mean]).  [np_mean_seq] is the
      instance used for concrete runs.
    - Outside the embedding: the import guard for the plotting library, the
      creation of the output directory, and the reading of a file into rows
      (a file is given by the rows [csv.DictReader] yields for it). *)

From Stdlib Require Import ZArith Floats Ascii String.
From stdpp Require Import base option list sorting gmap strings pretty fin_maps.

Set Warnings "-inexact-float".
Local Open Scope string_scope.
Local Open Scope Z_scope.
Local Open Scope list_scope.

(** ** Exceptions and the effect monad *)

Inductive exn :=
| KeyError (key : string)
| ValueError (literal : string)
| IndexError
| ZeroDivisionError
| SystemExit (code : Z).

(** What a chart holds when it is written: the series handed to the plotting
    library.  Styling (colours, titles, the fixed reference lines) is constant
    and carries no data. *)
Inductive figure :=
| FragmentationFig (classes : list Z) (avg_waste avg_efficiency : list float)
| LatencyPercentilesFig (alloc_vals free_vals : list float)
| LatencyCdfFig (latencies : list float)
| RssFig (cycles : list Z) (rss_values : list float)
         (growth : option (float * float * float))
         (allocated recycled : list Z)
| SummaryFig (p50 p99 p999 avg_efficiency : float).

(** What a run leaves behind.  A printed line is recorded by its text,
    without the blank line or the tick mark some of them start with. *)
Inductive event :=
| Stdout (line : string)
| Stderr (line : string)
| Savefig (path : string) (fig : figure).

Definition io (A : Type) : Type := list event * (exn + A).

Definition ret {A} (a : A) : io A := ([], inr a).
Definition raise {A} (e : exn) : io A := ([], inl e).
Definition emit (ev : event) : io unit := ([ev], inr tt).
Definition bind {A B} (m : io A) (k : A -> io B) : io B :=
  match m with
  | (t, inl e) => (t, inl e)
  | (t, inr a) => let '(t', r) := k a in (t ++ t', r)
  end.

Declare Scope io_scope.
Delimit Scope io_scope with io.
Notation "'let*' x ':=' m 'in' k" := (bind m (fun x => k))
  (at level 10, x pattern, m at level 100, k at level 200) : io_scope.
Notation "m '>>' k" := (bind m (fun _ => k))
  (at level 100, k at level 200, right associativity) : io_scope.
Local Open Scope io_scope.

(** A pure computation that may raise, run inside [io]. *)
Definition lift {A} (r : exn + A) : io A := ([], r).

(** The list comprehension [[f(x) for x in xs]] of a function that may
    raise: left to right, stopping at the first exception. *)
Fixpoint comprehension {A B} (f : A -> exn + B) (xs : list A) : exn + list B :=
  match xs with
  | [] => inr []
  | x :: xs' =>
      match f x with
      | inl e => inl e
      | inr y =>
          match comprehension f xs' with
          | inl e => inl e
          | inr ys => inr (y :: ys)
          end
      end
  end.

Definition events {A} (m : io A) : list event := fst m.
Definition outcome {A} (m : io A) : exn + A := snd m.

(** The files a run has written, in order. *)
Definition artifacts {A} (m : io A) : list string :=
  omap (fun ev => match ev with Savefig p _ => Some p | _ => None end) (events m).

(** The lines a run has printed to the error stream.  The traceback the
    interpreter adds when an exception escapes is no event of the run: it is
    told by [outcome]. *)
Definition diagnostics {A} (m : io A) : list string :=
  omap (fun ev => match ev with Stderr l => Some l | _ => None end) (events m).

Definition raises {A} (m : io A) : Prop := exists e, outcome m = inl e.
Definition returns {A} (m : io A) : Prop := exists a, outcome m = inr a.

(** The status the interpreter leaves: 0 after a normal return,
    the code of [sys.exit], 1 after any other uncaught exception. *)
Definition exit_status (m : io unit) : Z :=
  match outcome m with
  | inr _ => 0
  | inl (SystemExit c) => c
  | inl _ => 1
  end.

(** ** The builtins [int] and [float] on strings (ASCII input) *)

(** The characters [int] and [float] strip from both ends of an ASCII
    string: tab, line feed, vertical tab, form feed, carriage return and
    space. *)
Definition is_space (c : ascii) : bool :=
  let n := N_of_ascii c in
  ((9 <=? n) && (n <=? 13) || (n =? 32))%N.

Definition digit_of (c : ascii) : option Z :=
  let n := N_of_ascii c in
  if ((48 <=? n) && (n <=? 57))%N then Some (Z.of_N n - 48) else None.

Definition lower (c : ascii) : ascii :=
  let n := N_of_ascii c in
  if ((65 <=? n) && (n <=? 90))%N then ascii_of_N (n + 32) else c.

Fixpoint lstrip (cs : list ascii) : list ascii :=
  match cs with
  | c :: cs' => if is_space c then lstrip cs' else cs
  | [] => []
  end.

Definition strip (cs : list ascii) : list ascii :=
  rev (lstrip (rev (lstrip cs))).

(** [sign cs]: an optional leading sign; [true] for minus. *)
Definition sign (cs : list ascii) : bool * list ascii :=
  match cs with
  | "+"%char :: cs' => (false, cs')
  | "-"%char :: cs' => (true, cs')
  | _ => (false, cs)
  end.

(** [digitpart ::= digit (["_"] digit)*]: the value read, the number of
    digits and the unread rest. *)
Fixpoint digitpart_rest (cs : list ascii) (v : Z) (n : Z) : Z * Z * list ascii :=
  match cs with
  | c :: cs' =>
      match digit_of c with
      | Some d => digitpart_rest cs' (10 * v + d) (n + 1)
      | None =>
          match c, cs' with
          | "_"%char, c' :: cs'' =>
              match digit_of c' with
              | Some d => digitpart_rest cs'' (10 * v + d) (n + 1)
              | None => (v, n, cs)
              end
          | _, _ => (v, n, cs)
          end
      end
  | [] => (v, n, [])
  end.

Definition digitpart (cs : list ascii) : option (Z * Z * list ascii) :=
  match cs with
  | c :: cs' =>
      match digit_of c with
      | Some d => Some (digitpart_rest cs' d 1)
      | None => None
      end
  | [] => None
  end.

(** CPython's default limit on the digits of a decimal literal
    ([sys.get_int_max_str_digits()], since 3.11). *)
Definition max_str_digits : Z := 4300.

(** [int(s)] in base 10. *)
Definition py_int (s : string) : option Z :=
  let '(neg, cs) := sign (strip (list_ascii_of_string s)) in
  match digitpart cs with
  | Some (v, n, []) =>
      if n <=? max_str_digits then Some (if neg then - v else v) else None
  | _ => None
  end.

(** The binary64 value nearest to [± num / den] (ties to even). *)
Definition float_of_ratio (neg : bool) (num den : positive) : float :=
  SF2Prim (SFdiv prec emax (S754_finite neg num 0) (S754_finite false den 0)).

(** The binary64 value nearest to [m * 10 ^ e]. *)
Definition float_of_decimal (neg : bool) (m e : Z) : float :=
  match m with
  | Zpos p =>
      if 0 <=? e then float_of_ratio neg (p * Z.to_pos (10 ^ e)) 1
      else float_of_ratio neg p (Z.to_pos (10 ^ (- e)))
  | _ => if neg then PrimFloat.neg_zero else PrimFloat.zero
  end.

(** [float(n)] of an integer. *)
Definition float_of_Z (z : Z) : float :=
  SF2Prim (binary_normalize prec emax z 0 false).

(** [exponent ::= ("e" | "E") [sign] digitpart], optional. *)
Definition exponent (cs : list ascii) : option (Z * list ascii) :=
  match cs with
  | c :: cs' =>
      if Ascii.eqb (lower c) "e" then
        let '(neg, cs'') := sign cs' in
        match digitpart cs'' with
        | Some (v, _, rest) => Some (if neg then - v else v, rest)
        | None => None
        end
      else Some (0, cs)
  | [] => Some (0, [])
  end.

(** [number ::= [digitpart] "." digitpart | digitpart ["."]]: the digits as
    one integer, the count of those after the point, the rest. *)
Definition number (cs : list ascii) : option (Z * Z * list ascii) :=
  match digitpart cs with
  | Some (iv, _, "."%char :: r) =>
      match digitpart r with
      | Some (fv, fn, r') => Some (iv * 10 ^ fn + fv, fn, r')
      | None => Some (iv, 0, r)
      end
  | Some (iv, _, r) => Some (iv, 0, r)
  | None =>
      match cs with
      | "."%char :: r =>
          match digitpart r with
          | Some (fv, fn, r') => Some (fv, fn, r')
          | None => None
          end
      | _ => None
      end
  end.

(** [float(s)]: optional sign, then [inf], [infinity] or [nan] in any case,
    or a decimal number with an optional exponent. *)
Definition py_float (s : string) : option float :=
  let '(neg, cs) := sign (strip (list_ascii_of_string s)) in
  let word := string_of_list_ascii (map lower cs) in
  if String.eqb word "inf" || String.eqb word "infinity" then
    Some (if neg then PrimFloat.neg_infinity else PrimFloat.infinity)
  else if String.eqb word "nan" then Some PrimFloat.nan
  else
    match number cs with
    | Some (m, fn, r) =>
        match exponent r with
        | Some (e, []) => Some (float_of_decimal neg m (e - fn))
        | _ => None
        end
    | None => None
    end.

(** [float(0)], the value of the default in [row.get(m, 0)]. *)
Definition float_zero : float := float_of_Z 0.

(** ** Records and the loader *)

Abbreviation Record := (gmap string string).

(** [row[key]] *)
Definition getitem (row : Record) (key : string) : exn + string :=
  match row !! key with
  | Some v => inr v
  | None => inl (KeyError key)
  end.

(** [int(row[key])] *)
Definition int_field (row : Record) (key : string) : exn + Z :=
  match getitem row key with
  | inl e => inl e
  | inr v => match py_int v with Some z => inr z | None => inl (ValueError v) end
  end.

(** [float(row[key])] *)
Definition float_field (row : Record) (key : string) : exn + float :=
  match getitem row key with
  | inl e => inl e
  | inr v => match py_float v with Some x => inr x | None => inl (ValueError v) end
  end.

(** [float(row.get(key, 0))] *)
Definition float_get (row : Record) (key : string) : exn + float :=
  match row !! key with
  | Some v => match py_float v with Some x => inr x | None => inl (ValueError v) end
  | None => inr float_zero
  end.

(** [row.get('op') == name] *)
Definition op_is (name : string) (row : Record) : bool :=
  bool_decide (row !! "op" = Some name).

(** [key in row] *)
Definition has (key : string) (row : Record) : bool :=
  bool_decide (is_Some (row !! key)).

(** [dir / name], printed. *)
Definition path_join (dir name : string) : string := dir +:+ "/" +:+ name.

(** The file system at load time: the rows [csv.DictReader] yields for each
    path that exists. *)
Abbreviation files := (gmap string (list Record)).

Definition load_csv (fs : files) (path : string) : list Record :=
  match fs !! path with
  | None => []
  | Some rows => rows
  end.

(** ** The classifier (the three comprehensions of [main]) *)

Definition is_latency (row : Record) : bool := has "op" row.
Definition is_frag (row : Record) : bool :=
  has "efficiency_pct" row && negb (has "op" row).
Definition is_rss (row : Record) : bool := has "cycle" row && has "rss_mib" row.

Definition latency_of (all_data : list Record) : list Record :=
  List.filter is_latency all_data.
Definition frag_of (all_data : list Record) : list Record :=
  List.filter is_frag all_data.
Definition rss_of (all_data : list Record) : list Record :=
  List.filter is_rss all_data.

(** ** Derived statistics *)

(** One entry of [size_classes]. *)
Record class_acc := ClassAcc {
  requested : list Z;
  wasted : list Z;
  efficiency : list float
}.

(** The body of the grouping loop of [plot_fragmentation] for one row. *)
Definition group_row (size_classes : gmap Z class_acc) (row : Record)
  : exn + gmap Z class_acc :=
  if negb (has "size_class" row) then inr size_classes
  else
    match int_field row "size_class" with
    | inl e => inl e
    | inr sc =>
        let acc := default (ClassAcc [] [] []) (size_classes !! sc) in
        match int_field row "requested" with
        | inl e => inl e
        | inr r =>
            match int_field row "wasted" with
            | inl e => inl e
            | inr w =>
                match float_field row "efficiency_pct" with
                | inl e => inl e
                | inr x =>
                    inr (<[sc := ClassAcc (requested acc ++ [r])
                                          (wasted acc ++ [w])
                                          (efficiency acc ++ [x])]> size_classes)
                end
            end
        end
    end.

Fixpoint group_rows (size_classes : gmap Z class_acc) (data : list Record)
  : exn + gmap Z class_acc :=
  match data with
  | [] => inr size_classes
  | row :: data' =>
      match group_row size_classes row with
      | inl e => inl e
      | inr size_classes' => group_rows size_classes' data'
      end
  end.

(** [sorted(size_classes.keys())] *)
Definition sorted_keys (size_classes : gmap Z class_acc) : list Z :=
  merge_sort Z.le (map_to_list size_classes).*1.

(** [size_classes[sc]] *)
Definition class_of (size_classes : gmap Z class_acc) (sc : Z) : exn + class_acc :=
  match size_classes !! sc with
  | Some acc => inr acc
  | None => inl (KeyError (pretty sc))
  end.

(** The growth annotation of [plot_rss_over_time]: initial, final and
    percentage.  Python's float division raises on a zero divisor. *)
Definition growth_of (rss_values : list float) : exn + (float * float * float) :=
  match rss_values !! 0%nat, rss_values !! (length rss_values - 1)%nat with
  | Some rss_initial, Some rss_final =>
      if (rss_initial =? 0)%float then inl ZeroDivisionError
      else inr (rss_initial, rss_final,
                ((rss_final - rss_initial) / rss_initial * float_of_Z 100)%float)
  | _, _ => inl IndexError
  end.

Definition metrics : list string := ["p50_ns"; "p95_ns"; "p99_ns"; "p999_ns"].

(** [numpy.mean] of fewer than eight float64 values: the running sum from
    zero, divided by the count. *)
Definition np_mean_seq (xs : list float) : float :=
  (fold_left PrimFloat.add xs PrimFloat.zero / float_of_Z (Z.of_nat (length xs)))%float.

(** ** The renderers and the orchestrator *)

Section Pipeline.

Variable np_mean : list float -> float.

Definition plot_fragmentation (data : list Record) (output_dir : string) : io unit :=
  match data with
  | [] => emit (Stderr "No fragmentation data found")
  | _ =>
      let* size_classes := lift (group_rows ∅ data) in
      let classes := sorted_keys size_classes in
      let* avg_waste :=
        lift (comprehension
                (fun sc => match class_of size_classes sc with
                           | inl e => inl e
                           | inr acc => inr (np_mean (float_of_Z <$> wasted acc))
                           end) classes) in
      let* avg_efficiency :=
        lift (comprehension
                (fun sc => match class_of size_classes sc with
                           | inl e => inl e
                           | inr acc => inr (np_mean (efficiency acc))
                           end) classes) in
      let output_path := path_join output_dir "fragmentation.png" in
      emit (Savefig output_path (FragmentationFig classes avg_waste avg_efficiency)) >>
      emit (Stdout ("Generated: " +:+ output_path))
  end.

Definition plot_latency_comparison (data : list Record) (output_dir : string) : io unit :=
  match data with
  | [] => emit (Stderr "No latency data found")
  | _ =>
      let alloc_data := List.filter (op_is "alloc") data in
      let free_data := List.filter (op_is "free") data in
      match alloc_data with
      | [] => emit (Stderr "No allocation latency data")
      | alloc_row :: _ =>
          let* alloc_vals := lift (comprehension (float_get alloc_row) metrics) in
          let* free_vals :=
            lift (comprehension
                    (fun m => match free_data with
                              | free_row :: _ => float_get free_row m
                              | [] => inr float_zero
                              end) metrics) in
          let output_path := path_join output_dir "latency_percentiles.png" in
          emit (Savefig output_path (LatencyPercentilesFig alloc_vals free_vals)) >>
          emit (Stdout ("Generated: " +:+ output_path))
      end
  end.

Definition plot_latency_cdf (data : list Record) (output_dir : string) : io unit :=
  let alloc_data := List.filter (op_is "alloc") data in
  match alloc_data with
  | [] => ret tt
  | row :: _ =>
      let* latencies :=
        lift (comprehension (float_get row) ["p50_ns"; "p95_ns"; "p99_ns"; "p999_ns"]) in
      let output_path := path_join output_dir "latency_cdf.png" in
      emit (Savefig output_path (LatencyCdfFig latencies)) >>
      emit (Stdout ("Generated: " +:+ output_path))
  end.

Definition plot_rss_over_time (data : list Record) (output_dir : string) : io unit :=
  match data with
  | [] => emit (Stderr "No RSS churn data found")
  | _ =>
      let* cycles := lift (comprehension (fun row => int_field row "cycle") data) in
      let* rss_values := lift (comprehension (fun row => float_field row "rss_mib") data) in
      let* allocated :=
        lift (comprehension (fun row => int_field row "slabs_allocated") data) in
      let* recycled :=
        lift (comprehension (fun row => int_field row "slabs_recycled") data) in
      let* growth :=
        match rss_values with
        | [] => ret None
        | _ => let* g := lift (growth_of rss_values) in ret (Some g)
        end in
      let output_path := path_join output_dir "rss_over_time.png" in
      emit (Savefig output_path (RssFig cycles rss_values growth allocated recycled)) >>
      emit (Stdout ("Generated: " +:+ output_path))
  end.

Definition plot_summary_card (latency_data frag_data : list Record) (output_dir : string)
  : io unit :=
  let alloc_row := default ∅ (head (List.filter (op_is "alloc") latency_data)) in
  let* p50 := lift (float_get alloc_row "p50_ns") in
  let* p99 := lift (float_get alloc_row "p99_ns") in
  let* p999 := lift (float_get alloc_row "p999_ns") in
  let* avg_efficiency :=
    match frag_data with
    | [] => ret float_zero
    | _ =>
        let* efficiencies :=
          lift (comprehension (fun row => float_field row "efficiency_pct")
                  (List.filter (has "efficiency_pct") frag_data)) in
        ret (match efficiencies with [] => float_zero | _ => np_mean efficiencies end)
    end in
  let output_path := path_join output_dir "summary.png" in
  emit (Savefig output_path (SummaryFig p50 p99 p999 avg_efficiency)) >>
  emit (Stdout ("Generated: " +:+ output_path)).

(** The loading loop of [main]: [csv_files] are the names the glob found. *)
Fixpoint load_all (fs : files) (input : string) (csv_files : list string)
    (all_data : list Record) : io (list Record) :=
  match csv_files with
  | [] => ret all_data
  | csv_file :: rest =>
      emit (Stdout ("Loading " +:+ csv_file +:+ "...")) >>
      load_all fs input rest (all_data ++ load_csv fs (path_join input csv_file))
  end.

(** [when c m]: [if c: m]. *)
Definition when (c : bool) (m : io unit) : io unit := if c then m else ret tt.

Definition nonempty {A} (l : list A) : bool :=
  match l with [] => false | _ => true end.

Definition main (fs : files) (input output : string) (csv_files : list string) : io unit :=
  match csv_files with
  | [] =>
      emit (Stderr ("No CSV files found in " +:+ input)) >>
      emit (Stderr "Run benchmarks first with --csv flag") >>
      raise (SystemExit 1)
  | _ =>
      emit (Stdout ("Found " +:+ pretty (length csv_files) +:+ " CSV file(s) in " +:+ input)) >>
      let* all_data := load_all fs input csv_files [] in
      match all_data with
      | [] => emit (Stderr "No data loaded") >> raise (SystemExit 1)
      | _ =>
          let latency_data := latency_of all_data in
          let frag_data := frag_of all_data in
          let rss_data := rss_of all_data in
          emit (Stdout ("Loaded " +:+ pretty (length latency_data) +:+ " latency rows, "
                        +:+ pretty (length frag_data) +:+ " fragmentation rows, "
                        +:+ pretty (length rss_data) +:+ " RSS samples")) >>
          emit (Stdout "Generating visualizations...") >>
          when (nonempty latency_data)
            (plot_latency_comparison latency_data output >>
             plot_latency_cdf latency_data output) >>
          when (nonempty frag_data) (plot_fragmentation frag_data output) >>
          when (nonempty rss_data) (plot_rss_over_time rss_data output) >>
          when (nonempty latency_data || nonempty frag_data)
            (plot_summary_card latency_data frag_data output) >>
          emit (Stdout ("All charts generated in " +:+ output)) >>
          emit (Stdout "Next step: Add charts to docs/results.md")
      end
  end.

End Pipeline.

(** ** Vocabulary of the statements *)

(** What the loader is expected to return: the rows of the discovered files
    that exist, in discovery order. *)
Definition existing (fs : files) (input : string) (csv_files : list string) : list string :=
  List.filter (fun f => bool_decide (is_Some (fs !! path_join input f))) csv_files.

Definition rows_of (fs : files) (input : string) (csv_file : string) : list Record :=
  default [] (fs !! path_join input csv_file).

(** The unified collection [main] classifies. *)
Definition loaded (fs : files) (input : string) (csv_files : list string) : list Record :=
  flat_map (fun f => load_csv fs (path_join input f)) csv_files.

(** The renderer calls of [main], in the order it makes them. *)
Definition render_steps (np_mean : list float -> float)
    (latency_data frag_data rss_data : list Record) (output : string) : list (io unit) :=
  [ when (nonempty latency_data) (plot_latency_comparison latency_data output);
    when (nonempty latency_data) (plot_latency_cdf latency_data output);
    when (nonempty frag_data) (plot_fragmentation np_mean frag_data output);
    when (nonempty rss_data) (plot_rss_over_time rss_data output);
    when (nonempty latency_data || nonempty frag_data)
      (plot_summary_card np_mean latency_data frag_data output) ].

Fixpoint run_all (steps : list (io unit)) : io unit :=
  match steps with
  | [] => ret tt
  | s :: rest => s >> run_all rest
  end.

(** The steps [main] runs for a given input. *)
Definition steps_of (np_mean : list float -> float) (fs : files)
    (input output : string) (csv_files : list string) : list (io unit) :=
  let all_data := loaded fs input csv_files in
  render_steps np_mean (latency_of all_data) (frag_of all_data) (rss_of all_data) output.

(** Keeping only the first Record of each [op] value, in arrival order. *)
Fixpoint first_per_op (seen : list (option string)) (data : list Record) : list Record :=
  match data with
  | [] => []
  | row :: rest =>
      if bool_decide (row !! "op" ∈ seen) then first_per_op seen rest
      else row :: first_per_op ((row !! "op") :: seen) rest
  end.

(** The Records of one size class, and the values the means range over. *)
Definition in_class (sc : Z) (row : Record) : bool :=
  bool_decide (row !! "size_class" ≫= py_int = Some sc).

Definition wasted_of (sc : Z) (data : list Record) : list Z :=
  omap (fun row => row !! "wasted" ≫= py_int) (List.filter (in_class sc) data).

Definition efficiency_of (sc : Z) (data : list Record) : list float :=
  omap (fun row => row !! "efficiency_pct" ≫= py_float) (List.filter (in_class sc) data).

(** A fragmentation Record the grouping loop can consume: if it has a size
    class at all, its four numeric fields are present and parse. *)
Definition frag_row_ok (row : Record) : Prop :=
  is_Some (row !! "size_class") ->
  is_Some (row !! "size_class" ≫= py_int) /\
  is_Some (row !! "requested" ≫= py_int) /\
  is_Some (row !! "wasted" ≫= py_int) /\
  is_Some (row !! "efficiency_pct" ≫= py_float).

(** A percentile field that is either absent or parses. *)
Definition metric_ok (row : Record) (m : string) : Prop :=
  forall v, row !! m = Some v -> is_Some (py_float v).

(** A renderer does all its parsing before it writes anything: when it
    raises, it has emitted no event, and what it raises is an ordinary
    exception (never [SystemExit]). *)
Definition ordinary (e : exn) : Prop :=
  match e with SystemExit _ => False | _ => True end.

Definition plain {A} (r : exn + A) : Prop :=
  match r with inl e => ordinary e | inr _ => True end.

Definition tidy {A} (m : io A) : Prop :=
  match m with
  | (t, inl e) => t = [] /\ ordinary e
  | (_, inr _) => True
  end.

(** What [main] prints before the first renderer runs and after the last. *)
Definition header (fs : files) (input : string) (csv_files : list string) : list event :=
  let all_data := loaded fs input csv_files in
  Stdout ("Found " +:+ pretty (length csv_files) +:+ " CSV file(s) in " +:+ input)
  :: map (fun f => Stdout ("Loading " +:+ f +:+ "...")) csv_files
  ++ [ Stdout ("Loaded " +:+ pretty (length (latency_of all_data)) +:+ " latency rows, "
               +:+ pretty (length (frag_of all_data)) +:+ " fragmentation rows, "
               +:+ pretty (length (rss_of all_data)) +:+ " RSS samples");
       Stdout "Generating visualizations..." ].

Definition footer (output : string) : list event :=
  [ Stdout ("All charts generated in " +:+ output);
    Stdout "Next step: Add charts to docs/results.md" ].

Definition requested_of (sc : Z) (data : list Record) : list Z :=
  omap (fun row => row !! "requested" ≫= py_int) (List.filter (in_class sc) data).

(** The accumulator of a class after more of its rows have been appended. *)
Definition extend (o : option class_acc) (sc : Z) (data : list Record) : option class_acc :=
  match List.filter (in_class sc) data with
  | [] => o
  | _ =>
      let acc := default (ClassAcc [] [] []) o in
      Some (ClassAcc (requested acc ++ requested_of sc data)
                     (wasted acc ++ wasted_of sc data)
                     (efficiency acc ++ efficiency_of sc data))
  end.

(** Everything the renderers draw from a latency Group. *)
Definition latency_charts (np_mean : list float -> float)
    (data frag_data : list Record) (output : string)
  : io unit * io unit * io unit :=
  (plot_latency_comparison data output,
   plot_latency_cdf data output,
   plot_summary_card np_mean data frag_data output).

(** An RSS Record whose numeric fields are well formed: [cycle] and
    [rss_mib] are present and parse, and a slab count that is present
    parses. *)
Definition rss_row_ok (row : Record) : Prop :=
  is_Some (row !! "cycle" ≫= py_int) /\
  is_Some (row !! "rss_mib" ≫= py_float) /\
  (forall v, row !! "slabs_allocated" = Some v -> is_Some (py_int v)) /\
  (forall v, row !! "slabs_recycled" = Some v -> is_Some (py_int v)).

(** The value drawn for a percentile field: the parsed field, or the
    default of [row.get(m, 0)] when the Record has no such field. *)
Definition metric_value (row : Record) (m : string) : float :=
  default float_zero (row !! m ≫= py_float).

(** An RSS Record with all four fields present and well formed. *)
Definition rss_row_full (row : Record) : Prop :=
  is_Some (row !! "cycle" ≫= py_int) /\
  is_Some (row !! "rss_mib" ≫= py_float) /\
  is_Some (row !! "slabs_allocated" ≫= py_int) /\
  is_Some (row !! "slabs_recycled" ≫= py_int).

(** The parsed values of one field over a Group, in arrival order. *)
Definition ints_of (key : string) (data : list Record) : list Z :=
  omap (fun row => row !! key ≫= py_int) data.

Definition floats_of (key : string) (data : list Record) : list float :=
  omap (fun row => row !! key ≫= py_float) data.

(** What a renderer call may leave behind: nothing, one of the given
    notices on the error stream, or its chart at [path] followed by the
    progress line. *)
Definition renders (path : string) (notices : list string) (m : io unit) : Prop :=
  events m = [] \/
  (exists n, n ∈ notices /\ events m = [Stderr n]) \/
  (exists fig, events m = [Savefig path fig; Stdout ("Generated: " +:+ path)]).

(** The five charts of a run, in the order [main] draws them. *)
Definition chart_paths (output : string) : list string :=
  path_join output <$>
    ["latency_percentiles.png"; "latency_cdf.png"; "fragmentation.png";
     "rss_over_time.png"; "summary.png"].

(** The notices each renderer call of [main] can print. *)
Definition step_notices : list (list string) :=
  [["No allocation latency data"]; []; []; []; []].

(** Input on which every renderer can do its work: the percentile fields
    of the first [alloc] and the first [free] Record are absent or parse,
    the fragmentation Records are well formed and their efficiencies parse,
    and the RSS Records have their four fields, the first RSS value not
    being zero. *)
Definition well_formed (all_data : list Record) : Prop :=
  (forall row, head (List.filter (op_is "alloc") (latency_of all_data)) = Some row ->
               Forall (metric_ok row) metrics) /\
  (forall row, head (List.filter (op_is "free") (latency_of all_data)) = Some row ->
               Forall (metric_ok row) metrics) /\
  Forall frag_row_ok (frag_of all_data) /\
  (forall row v, row ∈ frag_of all_data -> row !! "efficiency_pct" = Some v ->
                 is_Some (py_float v)) /\
  Forall rss_row_full (rss_of all_data) /\
  (forall row x, head (rss_of all_data) = Some row ->
                 row !! "rss_mib" ≫= py_float = Some x -> (x =? 0)%float = false).

(** The charts a successful run writes for a given collection. *)
Definition expected_charts (output : string) (all_data : list Record) : list string :=
  (if nonempty (List.filter (op_is "alloc") (latency_of all_data))
   then [path_join output "latency_percentiles.png"; path_join output "latency_cdf.png"]
   else []) ++
  (if nonempty (frag_of all_data) then [path_join output "fragmentation.png"] else []) ++
  (if nonempty (rss_of all_data) then [path_join output "rss_over_time.png"] else []) ++
  (if nonempty (latency_of all_data) || nonempty (frag_of all_data)
   then [path_join output "summary.png"] else []).

(** A step that returns, having written its chart or not. *)
Definition step_ok (path : string) (written : bool) (m : io unit) : Prop :=
  outcome m = inr tt /\ artifacts m = if written then [path] else [].

(** ** Laws of the effect monad *)

Lemma bind_ret_l {A B} (a : A) (k : A -> io B) : bind (ret a) k = k a.
Proof. unfold bind, ret. destruct (k a) as [t r]. reflexivity. Qed.

Lemma bind_ret_r {A} (m : io A) : bind m ret = m.
Proof.
  destruct m as [t [e | a]]; unfold bind, ret; simpl; try reflexivity.
  rewrite app_nil_r. reflexivity.
Qed.

Lemma bind_assoc {A B C} (m : io A) (k : A -> io B) (h : B -> io C) :
  bind (bind m k) h = bind m (fun a => bind (k a) h).
Proof.
  destruct m as [t [e | a]]; unfold bind; simpl; try reflexivity.
  destruct (k a) as [t' [e' | b]]; simpl; try reflexivity.
  destruct (h b) as [t'' r'']. rewrite app_assoc. reflexivity.
Qed.

Lemma bind_raise {A B} t (e : exn) (k : A -> io B) : bind (t, inl e) k = (t, inl e).
Proof. reflexivity. Qed.

Lemma bind_value {A B} t (a : A) (k : A -> io B) :
  bind (t, inr a) k = (t ++ events (k a), outcome (k a)).
Proof. unfold bind, events, outcome. destruct (k a). reflexivity. Qed.

Lemma events_bind_return {A B} (m : io A) (k : A -> io B) a :
  outcome m = inr a -> events (bind m k) = events m ++ events (k a).
Proof.
  destruct m as [t r]; unfold outcome, events, bind; simpl. intros ->.
  destruct (k a). reflexivity.
Qed.

Lemma outcome_bind_return {A B} (m : io A) (k : A -> io B) a :
  outcome m = inr a -> outcome (bind m k) = outcome (k a).
Proof.
  destruct m as [t r]; unfold outcome, bind; simpl. intros ->.
  destruct (k a). reflexivity.
Qed.

Lemma bind_raises {A B} (m : io A) (k : A -> io B) e :
  outcome m = inl e -> bind m k = (events m, inl e).
Proof. destruct m as [t r]; unfold outcome; simpl. intros ->. reflexivity. Qed.

Lemma artifacts_app (t1 t2 : list event) (r1 r2 : exn + unit) :
  artifacts (t1 ++ t2, r1) = artifacts (t1, r2) ++ artifacts (t2, r2).
Proof. unfold artifacts, events; simpl. apply omap_app. Qed.

(** ** Evaluation of closed goals *)

(** A concrete list is not empty: by its length. *)
Ltac by_length :=
  let H := fresh in
  intros H; apply (f_equal (@length _)) in H; vm_compute in H; discriminate H.

(** The percentile fields of a concrete Record are absent or parse. *)
Ltac metric_ok_tac :=
  let v := fresh "v" in
  let Hv := fresh "Hv" in
  intros v Hv; vm_compute in Hv;
  first [ discriminate Hv
        | injection Hv as <-; vm_compute; eexists; reflexivity ].

Ltac metrics_ok :=
  unfold metrics;
  repeat (apply List.Forall_cons; [metric_ok_tac |]); apply List.Forall_nil.

(** The fields of a concrete Record parse. *)
Ltac parses := vm_compute; repeat split; eexists; reflexivity.

(** A decidable closed proposition, by running its decision procedure. *)
Ltac by_decision := apply (bool_decide_unpack _); vm_compute; exact I.

(** ** The loader *)

Lemma load_all_spec fs input csv_files acc :
  load_all fs input csv_files acc =
  (map (fun f => Stdout ("Loading " +:+ f +:+ "...")) csv_files,
   inr (acc ++ loaded fs input csv_files)).
Proof.
  revert acc. induction csv_files as [| f rest IH]; intros acc.
  - simpl. unfold ret. rewrite app_nil_r. reflexivity.
  - cbn [load_all]. unfold emit. rewrite bind_value, IH.
    unfold events, outcome, loaded; simpl. rewrite <- app_assoc. reflexivity.
Qed.

Lemma loaded_existing fs input csv_files :
  loaded fs input csv_files = flat_map (rows_of fs input) (existing fs input csv_files).
Proof.
  unfold loaded, existing, rows_of, load_csv.
  induction csv_files as [| f rest IH]; simpl; [reflexivity |].
  rewrite IH. destruct (fs !! path_join input f) as [rows |] eqn:E; simpl.
  - rewrite E. reflexivity.
  - reflexivity.
Qed.

(** C9. A discovered path that does not exist when it is loaded contributes
    no Record and the load goes on: the loading loop of [main] never raises,
    and the collection it returns is the concatenation, in discovery order,
    of the Records of the discovered files that exist. *)
Theorem missing_file_contributes_nothing (fs : files) (input : string)
    (csv_files : list string) :
  (forall f, fs !! path_join input f = None -> load_csv fs (path_join input f) = []) /\
  outcome (load_all fs input csv_files []) =
    inr (flat_map (rows_of fs input) (existing fs input csv_files)).
Proof.
  split.
  - intros f E. unfold load_csv. rewrite E. reflexivity.
  - rewrite load_all_spec. unfold outcome; simpl. f_equal. apply loaded_existing.
Qed.

(** A run of the loader over three discovered names of which the second
    has disappeared. *)
Lemma missing_file_contributes_nothing_witness :
  let r1 : Record := {[ "op" := "alloc" ]} in
  let r2 : Record := {[ "op" := "free" ]} in
  let fs : files := {[ "in/a.csv" := [r1]; "in/c.csv" := [r2] ]} in
  load_csv fs (path_join "in" "b.csv") = [] /\
  outcome (load_all fs "in" ["a.csv"; "b.csv"; "c.csv"] []) = inr [r1; r2].
Proof.
  intros r1 r2 fs.
  destruct (missing_file_contributes_nothing fs "in" ["a.csv"; "b.csv"; "c.csv"])
    as [Hmiss Hall].
  split.
  - apply Hmiss. vm_compute. reflexivity.
  - rewrite Hall. vm_compute. reflexivity.
Defined.

(** ** The classifier *)

Lemma elem_of_filter_bool {A} (p : A -> bool) (l : list A) (x : A) :
  x ∈ List.filter p l <-> x ∈ l /\ p x = true.
Proof. rewrite !list_elem_of_In, filter_In. reflexivity. Qed.

Lemma has_true key (row : Record) : has key row = true <-> is_Some (row !! key).
Proof. unfold has. apply bool_decide_eq_true. Qed.

(** C1, as amended. Among the Records of the unified collection: one that
    contains [op] is placed in [latency] and never in [fragmentation]; no
    Record is in both of these Groups; and membership in [rss_churn] depends
    on [cycle] and [rss_mib] alone, whatever else the Record contains. *)
Theorem op_goes_to_latency_not_fragmentation (all_data : list Record) (row : Record) :
  row ∈ all_data ->
  (is_Some (row !! "op") ->
     row ∈ latency_of all_data /\ (row ∉ frag_of all_data)) /\
  ~ (row ∈ latency_of all_data /\ row ∈ frag_of all_data) /\
  (row ∈ rss_of all_data <-> is_Some (row !! "cycle") /\ is_Some (row !! "rss_mib")).
Proof.
  intros Hin. unfold latency_of, frag_of, rss_of.
  rewrite !elem_of_filter_bool. unfold is_latency, is_frag, is_rss.
  repeat split.
  - assumption.
  - apply has_true. assumption.
  - intros [_ Hf]. apply andb_true_iff in Hf as [_ Hn].
    apply negb_true_iff in Hn. apply has_true in H. congruence.
  - intros [[_ Hl] [_ Hf]]. apply andb_true_iff in Hf as [_ Hn].
    apply negb_true_iff in Hn. congruence.
  - apply has_true. destruct H as [_ H]. apply andb_true_iff in H. tauto.
  - apply has_true. destruct H as [_ H]. apply andb_true_iff in H. tauto.
  - assumption.
  - destruct H as [H1 H2]. apply has_true in H1, H2. rewrite H1, H2. reflexivity.
Qed.

Lemma op_goes_to_latency_not_fragmentation_witness :
  let row : Record := {[ "op" := "alloc"; "efficiency_pct" := "90.0" ]} in
  row ∈ latency_of [row] /\ (row ∉ frag_of [row]).
Proof.
  intros row.
  refine (proj1 (op_goes_to_latency_not_fragmentation [row] row _) _).
  - apply list_elem_of_here.
  - vm_compute. eauto.
Defined.

(** C1 as stated fails: a Record with [op], [cycle] and [rss_mib] is placed
    in [latency] and in [rss_churn]. *)
Lemma op_record_also_in_rss_churn :
  ~ (forall (all_data : list Record) (row : Record),
       row ∈ all_data -> is_Some (row !! "op") ->
       row ∈ latency_of all_data /\
       (row ∉ frag_of all_data) /\ (row ∉ rss_of all_data)).
Proof.
  intros H.
  pose (row := ({[ "op" := "alloc"; "cycle" := "1"; "rss_mib" := "100.0" ]} : Record)).
  destruct (H [row] row) as (_ & _ & Hrss).
  - apply list_elem_of_here.
  - vm_compute. eauto.
  - apply Hrss. by_decision.
Qed.

(** ** How renderers fail *)

Lemma tidy_ret {A} (a : A) : tidy (ret a).
Proof. exact I. Qed.

Lemma tidy_emit ev : tidy (emit ev).
Proof. exact I. Qed.

Lemma tidy_emit_then ev (m : io unit) : returns m -> tidy (emit ev >> m).
Proof.
  intros [a Ha]. destruct m as [t r]. unfold outcome in Ha; simpl in Ha; subst r.
  exact I.
Qed.

Lemma tidy_bind_lift {A B} (r : exn + A) (k : A -> io B) :
  plain r -> (forall a, tidy (k a)) -> tidy (bind (lift r) k).
Proof.
  intros Hr Hk. destruct r as [e | a]; simpl.
  - split; [reflexivity | exact Hr].
  - specialize (Hk a). destruct (k a) as [t [e | b]]; simpl; [exact Hk | exact I].
Qed.

Lemma tidy_bind_ret {A B} (a : A) (k : A -> io B) : tidy (k a) -> tidy (bind (ret a) k).
Proof. rewrite bind_ret_l. trivial. Qed.

Lemma plain_getitem row key : plain (getitem row key).
Proof. unfold getitem. destruct (row !! key); exact I. Qed.

Lemma plain_int_field row key : plain (int_field row key).
Proof.
  unfold int_field, getitem. destruct (row !! key) as [v |]; [| exact I].
  destruct (py_int v); exact I.
Qed.

Lemma plain_float_field row key : plain (float_field row key).
Proof.
  unfold float_field, getitem. destruct (row !! key) as [v |]; [| exact I].
  destruct (py_float v); exact I.
Qed.

Lemma plain_float_get row key : plain (float_get row key).
Proof.
  unfold float_get. destruct (row !! key) as [v |]; [| exact I].
  destruct (py_float v); exact I.
Qed.

Lemma plain_comprehension {A B} (f : A -> exn + B) xs :
  (forall x, plain (f x)) -> plain (comprehension f xs).
Proof.
  intros Hf. induction xs as [| x xs IH]; simpl; [exact I |].
  specialize (Hf x). destruct (f x) as [e | y]; [exact Hf |].
  destruct (comprehension f xs); [exact IH | exact I].
Qed.

Lemma plain_group_row m row : plain (group_row m row).
Proof.
  unfold group_row. destruct (negb (has "size_class" row)); [exact I |].
  pose proof (plain_int_field row "size_class") as H1.
  destruct (int_field row "size_class"); [exact H1 |].
  pose proof (plain_int_field row "requested") as H2.
  destruct (int_field row "requested"); [exact H2 |].
  pose proof (plain_int_field row "wasted") as H3.
  destruct (int_field row "wasted"); [exact H3 |].
  pose proof (plain_float_field row "efficiency_pct") as H4.
  destruct (float_field row "efficiency_pct"); [exact H4 | exact I].
Qed.

Lemma plain_group_rows data : forall m, plain (group_rows m data).
Proof.
  induction data as [| row data IH]; intros m; simpl; [exact I |].
  pose proof (plain_group_row m row) as H.
  destruct (group_row m row); [exact H | apply IH].
Qed.

Lemma plain_class_of m sc : plain (class_of m sc).
Proof. unfold class_of. destruct (m !! sc); exact I. Qed.

Lemma plain_growth_of rss_values : plain (growth_of rss_values).
Proof.
  unfold growth_of. destruct (rss_values !! 0%nat) as [i |]; [| exact I].
  destruct (rss_values !! _) as [f |]; [| exact I].
  destruct (i =? 0)%float; exact I.
Qed.

Create HintDb plain_db.
#[local] Hint Resolve plain_getitem plain_int_field plain_float_field plain_float_get
  plain_group_rows plain_class_of plain_growth_of : plain_db.
#[local] Hint Extern 2 (plain (comprehension _ _)) =>
  apply plain_comprehension; intros : plain_db.

Ltac tidy_steps :=
  repeat first
    [ apply tidy_bind_lift; [ | intros ? ]
    | apply tidy_emit_then; eexists; reflexivity
    | apply tidy_emit
    | apply tidy_ret ].

Section RendererFailure.

Variable np_mean : list float -> float.

Lemma tidy_plot_fragmentation data out : tidy (plot_fragmentation np_mean data out).
Proof.
  destruct data as [| row data]; [exact I |].
  unfold plot_fragmentation. tidy_steps.
  - apply plain_group_rows.
  - apply plain_comprehension. intros sc.
    pose proof (plain_class_of a sc) as H. destruct (class_of a sc); [exact H | exact I].
  - apply plain_comprehension. intros sc.
    pose proof (plain_class_of a sc) as H. destruct (class_of a sc); [exact H | exact I].
Qed.

Lemma tidy_plot_latency_comparison data out : tidy (plot_latency_comparison data out).
Proof.
  destruct data as [| row data]; [exact I |].
  unfold plot_latency_comparison.
  destruct (List.filter (op_is "alloc") (row :: data)) as [| alloc_row ?]; [exact I |].
  tidy_steps.
  - auto with plain_db.
  - apply plain_comprehension. intros m.
    destruct (List.filter (op_is "free") (row :: data)); [exact I | auto with plain_db].
Qed.

Lemma tidy_plot_latency_cdf data out : tidy (plot_latency_cdf data out).
Proof.
  unfold plot_latency_cdf.
  destruct (List.filter (op_is "alloc") data) as [| alloc_row ?]; [exact I |].
  tidy_steps. auto with plain_db.
Qed.

Lemma tidy_plot_rss_over_time data out : tidy (plot_rss_over_time data out).
Proof.
  destruct data as [| row data]; [exact I |].
  unfold plot_rss_over_time.
  apply tidy_bind_lift; [auto with plain_db |].
  intros cycles.
  apply tidy_bind_lift; [auto with plain_db |].
  intros rss_values.
  apply tidy_bind_lift; [auto with plain_db |].
  intros allocated.
  apply tidy_bind_lift; [auto with plain_db |].
  intros recycled.
  destruct rss_values as [| x xs].
  - apply tidy_bind_ret. tidy_steps.
  - rewrite bind_assoc. apply tidy_bind_lift; [auto with plain_db |].
    intros g. apply tidy_bind_ret. tidy_steps.
Qed.

Lemma tidy_plot_summary_card latency_data frag_data out :
  tidy (plot_summary_card np_mean latency_data frag_data out).
Proof.
  unfold plot_summary_card.
  apply tidy_bind_lift; [auto with plain_db |]. intros p50.
  apply tidy_bind_lift; [auto with plain_db |]. intros p99.
  apply tidy_bind_lift; [auto with plain_db |]. intros p999.
  destruct frag_data as [| row frag_data].
  - apply tidy_bind_ret. tidy_steps.
  - rewrite bind_assoc.
    apply tidy_bind_lift; [auto with plain_db |].
    intros efficiencies. apply tidy_bind_ret. tidy_steps.
Qed.

Lemma tidy_when c (m : io unit) : tidy m -> tidy (when c m).
Proof. destruct c; simpl; [trivial | intros _; exact I]. Qed.

Lemma tidy_render_steps latency_data frag_data rss_data out :
  Forall tidy (render_steps np_mean latency_data frag_data rss_data out).
Proof.
  unfold render_steps. repeat constructor; apply tidy_when.
  - apply tidy_plot_latency_comparison.
  - apply tidy_plot_latency_cdf.
  - apply tidy_plot_fragmentation.
  - apply tidy_plot_rss_over_time.
  - apply tidy_plot_summary_card.
Qed.

End RendererFailure.

(** ** The orchestrator unfolded *)

Lemma when_seq c (a b : io unit) : when c (a >> b) = (when c a >> when c b).
Proof. destruct c; reflexivity. Qed.

Lemma returns_unit (m : io unit) : returns m <-> outcome m = inr tt.
Proof.
  split; [intros [[] H]; exact H | intros H; exists tt; exact H].
Qed.

Lemma run_all_returns steps :
  Forall returns steps -> run_all steps = (concat (map events steps), inr tt).
Proof.
  induction 1 as [| s steps Hs _ IH]; [reflexivity |].
  cbn [run_all map concat]. apply returns_unit in Hs.
  destruct s as [t r]. unfold outcome in Hs; simpl in Hs; subst r.
  rewrite bind_value, IH. reflexivity.
Qed.

Lemma run_all_raises pre s post e :
  Forall returns pre -> outcome s = inl e ->
  run_all (pre ++ s :: post) = (concat (map events pre) ++ events s, inl e).
Proof.
  intros Hpre Hs. induction Hpre as [| p pre Hp _ IH].
  - cbn [app run_all map concat]. rewrite (bind_raises _ _ _ Hs). reflexivity.
  - cbn [app run_all map concat]. apply returns_unit in Hp.
    destruct p as [t r]. unfold outcome in Hp; simpl in Hp; subst r.
    rewrite bind_value, IH. unfold events, outcome; simpl.
    rewrite app_assoc. reflexivity.
Qed.

(** Either every step returns, or there is a first one that raises. *)
Lemma run_all_cases (steps : list (io unit)) :
  Forall returns steps \/
  exists pre s post e,
    steps = pre ++ s :: post /\ Forall returns pre /\ outcome s = inl e.
Proof.
  induction steps as [| s steps IH]; [left; constructor |].
  destruct (outcome s) as [e | []] eqn:Hs.
  - right. exists [], s, steps, e. repeat split; [constructor | exact Hs].
  - destruct IH as [IH | (pre & s' & post & e & -> & Hpre & Hs')].
    + left. constructor; [apply returns_unit; exact Hs | exact IH].
    + right. exists (s :: pre), s', post, e. repeat split; [| exact Hs'].
      constructor; [apply returns_unit; exact Hs | exact Hpre].
Qed.

Section Orchestrator.

Variable np_mean : list float -> float.

Lemma main_no_files fs input output :
  main np_mean fs input output [] =
  ([ Stderr ("No CSV files found in " +:+ input);
     Stderr "Run benchmarks first with --csv flag" ], inl (SystemExit 1)).
Proof. reflexivity. Qed.

Lemma main_no_rows fs input output csv_files :
  csv_files <> [] -> loaded fs input csv_files = [] ->
  main np_mean fs input output csv_files =
  (Stdout ("Found " +:+ pretty (length csv_files) +:+ " CSV file(s) in " +:+ input)
   :: map (fun f => Stdout ("Loading " +:+ f +:+ "...")) csv_files
   ++ [Stderr "No data loaded"], inl (SystemExit 1)).
Proof.
  intros Hne Hrows. destruct csv_files as [| f rest]; [congruence |].
  unfold main. rewrite load_all_spec, Hrows. reflexivity.
Qed.

Lemma main_renders fs input output csv_files :
  loaded fs input csv_files <> [] ->
  main np_mean fs input output csv_files =
  ((header fs input csv_files, inr tt) >>
   run_all (steps_of np_mean fs input output csv_files) >>
   (footer output, inr tt)).
Proof.
  intros Hrows. destruct csv_files as [| f rest]; [contradiction Hrows; reflexivity |].
  unfold main. rewrite load_all_spec. cbn [app]. unfold header.
  destruct (loaded fs input (f :: rest)) as [| row rows] eqn:Hl; [congruence |].
  unfold steps_of, render_steps. rewrite Hl. cbn [run_all].
  rewrite (bind_value (map _ _)). cbn beta iota.
  rewrite when_seq, !bind_assoc, bind_ret_l.
  set (charts := bind (when (nonempty (latency_of (row :: rows))) _) _).
  unfold emit. rewrite !bind_value. unfold events, outcome. cbn [fst snd].
  f_equal. cbn [app]. rewrite <- !app_assoc. reflexivity.
Qed.

(** The run when no renderer raises. *)
Lemma main_all_return fs input output csv_files :
  loaded fs input csv_files <> [] ->
  Forall returns (steps_of np_mean fs input output csv_files) ->
  main np_mean fs input output csv_files =
  (header fs input csv_files
   ++ concat (map events (steps_of np_mean fs input output csv_files))
   ++ footer output, inr tt).
Proof.
  intros Hrows Hall. rewrite (main_renders _ _ _ _ Hrows), (run_all_returns _ Hall).
  reflexivity.
Qed.

(** The run when a renderer raises: it stops there. *)
Lemma main_first_raise fs input output csv_files pre s post e :
  loaded fs input csv_files <> [] ->
  steps_of np_mean fs input output csv_files = pre ++ s :: post ->
  Forall returns pre -> outcome s = inl e ->
  main np_mean fs input output csv_files =
  (header fs input csv_files ++ concat (map events pre) ++ events s, inl e).
Proof.
  intros Hrows Hsteps Hpre Hs.
  rewrite (main_renders _ _ _ _ Hrows), Hsteps, (run_all_raises _ _ _ _ Hpre Hs).
  reflexivity.
Qed.

End Orchestrator.

(** ** Exit status and propagation of failures *)

Lemma exit_status_ordinary t e : ordinary e -> exit_status (t, inl e) = 1.
Proof. destruct e; simpl; [reflexivity .. | contradiction]. Qed.

Lemma artifacts_stdout {A} (f : A -> string) (l : list A) (r : exn + unit) :
  artifacts (map (fun x => Stdout (f x)) l, r) = [].
Proof.
  unfold artifacts, events; simpl.
  induction l as [| x l IH]; [reflexivity | exact IH].
Qed.

Lemma artifacts_cons_stdout line t (r : exn + unit) :
  artifacts (Stdout line :: t, r) = artifacts (t, r).
Proof. reflexivity. Qed.

Lemma artifacts_header fs input csv_files (r : exn + unit) :
  artifacts (header fs input csv_files, r) = [].
Proof.
  unfold header. rewrite artifacts_cons_stdout, artifacts_app with (r2 := r).
  rewrite artifacts_stdout. reflexivity.
Qed.

Lemma artifacts_concat (steps : list (io unit)) (r : exn + unit) :
  artifacts (concat (map events steps), r) = concat (map artifacts steps).
Proof.
  unfold artifacts at 1, events at 1; simpl.
  induction steps as [| s steps IH]; [reflexivity |].
  cbn [map concat]. rewrite omap_app, IH. reflexivity.
Qed.

Lemma when_false_steps np_mean out :
  render_steps np_mean [] [] [] out = [ret tt; ret tt; ret tt; ret tt; ret tt].
Proof. reflexivity. Qed.

Lemma int_field_malformed row key v :
  row !! key = Some v -> py_int v = None -> int_field row key = inl (ValueError v).
Proof. intros Hk Hv. unfold int_field, getitem. rewrite Hk, Hv. reflexivity. Qed.

Lemma float_field_malformed row key v :
  row !! key = Some v -> py_float v = None -> float_field row key = inl (ValueError v).
Proof. intros Hk Hv. unfold float_field, getitem. rewrite Hk, Hv. reflexivity. Qed.

Lemma float_get_malformed row key v :
  row !! key = Some v -> py_float v = None -> float_get row key = inl (ValueError v).
Proof. intros Hk Hv. unfold float_get. rewrite Hk, Hv. reflexivity. Qed.

(** C3, as amended. [main] ends with a failure status when the glob matched
    nothing, and also when the matched files hold no Record at all, writing
    no chart in either case.  Once at least one Record is loaded, it ends
    with success exactly when no renderer raises, and with status 1
    otherwise; in particular a run in which every Group is empty (Records
    that match no Group) succeeds and writes no chart. *)
Theorem exit_status_of_main (np_mean : list float -> float) (fs : files)
    (input output : string) (csv_files : list string) :
  let run := main np_mean fs input output csv_files in
  let all_data := loaded fs input csv_files in
  let steps := steps_of np_mean fs input output csv_files in
  (csv_files = [] -> exit_status run = 1 /\ artifacts run = []) /\
  (all_data = [] -> exit_status run = 1 /\ artifacts run = []) /\
  (all_data <> [] -> Forall returns steps -> exit_status run = 0) /\
  (all_data <> [] -> ~ Forall returns steps -> exit_status run = 1) /\
  (all_data <> [] ->
   latency_of all_data = [] -> frag_of all_data = [] -> rss_of all_data = [] ->
   exit_status run = 0 /\ artifacts run = []).
Proof.
  intros run all_data steps. subst run all_data steps.
  assert (Hnone : loaded fs input csv_files = [] ->
                  exit_status (main np_mean fs input output csv_files) = 1 /\
                  artifacts (main np_mean fs input output csv_files) = []).
  { intros Hrows. destruct csv_files as [| f rest].
    - rewrite main_no_files. split; reflexivity.
    - rewrite main_no_rows by (congruence || exact Hrows).
      split; [reflexivity |].
      rewrite artifacts_cons_stdout, artifacts_app with (r2 := inl (SystemExit 1)).
      rewrite artifacts_stdout. reflexivity. }
  split; [| split; [| split; [| split]]].
  - intros ->. apply Hnone. reflexivity.
  - exact Hnone.
  - intros Hrows Hall. rewrite (main_all_return _ _ _ _ _ Hrows Hall). reflexivity.
  - intros Hrows Hnot.
    destruct (run_all_cases (steps_of np_mean fs input output csv_files))
      as [Hall | (pre & s & post & e & Hsteps & Hpre & Hs)]; [contradiction |].
    rewrite (main_first_raise _ _ _ _ _ _ _ _ _ Hrows Hsteps Hpre Hs).
    apply exit_status_ordinary.
    pose proof (tidy_render_steps np_mean
                  (latency_of (loaded fs input csv_files))
                  (frag_of (loaded fs input csv_files))
                  (rss_of (loaded fs input csv_files)) output) as Htidy.
    fold (steps_of np_mean fs input output csv_files) in Htidy.
    rewrite Hsteps in Htidy. apply Forall_app in Htidy as [_ Htidy].
    apply Forall_cons_1 in Htidy as [Htidy _].
    destruct s as [t r]. unfold outcome in Hs; simpl in Hs; subst r.
    exact (proj2 Htidy).
  - intros Hrows Hl Hf Hr.
    assert (Hall : Forall returns (steps_of np_mean fs input output csv_files)).
    { unfold steps_of. rewrite Hl, Hf, Hr, when_false_steps.
      repeat constructor; exists tt; reflexivity. }
    rewrite (main_all_return _ _ _ _ _ Hrows Hall). split; [reflexivity |].
    unfold steps_of. rewrite Hl, Hf, Hr, when_false_steps.
    rewrite artifacts_app with (r2 := inr tt), artifacts_header. reflexivity.
Qed.

(** C3 as stated fails: one discovered file that holds a header and no row.
    The glob matched an artifact, and [main] still exits with status 1. *)
Lemma empty_files_exit_with_failure :
  ~ (forall (fs : files) (input output : string) (csv_files : list string),
       (csv_files = [] -> exit_status (main np_mean_seq fs input output csv_files) <> 0) /\
       (csv_files <> [] -> exit_status (main np_mean_seq fs input output csv_files) = 0)).
Proof.
  intros H.
  destruct (H {[ "in/a.csv" := [] ]} "in" "out" ["a.csv"]) as [_ H0].
  specialize (H0 ltac:(discriminate)). vm_compute in H0. discriminate.
Qed.

(** A run over one file whose only Record matches no Group: success, and no
    chart. *)
Lemma exit_status_of_main_witness :
  let row : Record := {[ "threads" := "4" ]} in
  let fs : files := {[ "in/a.csv" := [row] ]} in
  exit_status (main np_mean_seq fs "in" "out" ["a.csv"]) = 0 /\
  artifacts (main np_mean_seq fs "in" "out" ["a.csv"]) = [].
Proof.
  intros row fs.
  refine (proj2 (proj2 (proj2 (proj2
    (exit_status_of_main np_mean_seq fs "in" "out" ["a.csv"])))) _ _ _ _).
  - by_length.
  - vm_compute. reflexivity.
  - vm_compute. reflexivity.
  - vm_compute. reflexivity.
Defined.

(** C2, as amended. A required numeric field that fails to parse makes the
    read raise [ValueError] carrying the raw value (not the field name).
    Nothing catches it: when a renderer raises, it has written no chart,
    [main] ends with that same exception and status 1, the charts on disk
    are those of the renderers that ran before it, and no later renderer
    runs (nothing is emitted after the failing step). *)
Theorem renderer_failure_aborts_the_run (np_mean : list float -> float) (fs : files)
    (input output : string) (csv_files : list string)
    (pre post : list (io unit)) (s : io unit) (e : exn) :
  loaded fs input csv_files <> [] ->
  steps_of np_mean fs input output csv_files = pre ++ s :: post ->
  Forall returns pre ->
  outcome s = inl e ->
  let run := main np_mean fs input output csv_files in
  (forall row key v, row !! key = Some v ->
     (py_int v = None -> int_field row key = inl (ValueError v)) /\
     (py_float v = None -> float_field row key = inl (ValueError v)) /\
     (py_float v = None -> float_get row key = inl (ValueError v))) /\
  events s = [] /\
  outcome run = inl e /\
  exit_status run = 1 /\
  events run = header fs input csv_files ++ concat (map events pre) /\
  artifacts run = concat (map artifacts pre).
Proof.
  intros Hrows Hsteps Hpre Hs run. subst run.
  assert (Hs' : events s = [] /\ ordinary e).
  { pose proof (tidy_render_steps np_mean
                  (latency_of (loaded fs input csv_files))
                  (frag_of (loaded fs input csv_files))
                  (rss_of (loaded fs input csv_files)) output) as Htidy.
    fold (steps_of np_mean fs input output csv_files) in Htidy.
    rewrite Hsteps in Htidy. apply Forall_app in Htidy as [_ Htidy].
    apply Forall_cons_1 in Htidy as [Htidy _].
    destruct s as [t r]. unfold outcome in Hs; simpl in Hs; subst r.
    exact Htidy. }
  destruct Hs' as [Hev Hord].
  rewrite (main_first_raise _ _ _ _ _ _ _ _ _ Hrows Hsteps Hpre Hs), Hev, app_nil_r.
  split; [| split; [| split; [| split; [| split]]]].
  - intros row key v Hk. split; [| split]; intros Hv.
    + apply int_field_malformed; assumption.
    + apply float_field_malformed; assumption.
    + apply float_get_malformed; assumption.
  - reflexivity.
  - reflexivity.
  - apply exit_status_ordinary. exact Hord.
  - reflexivity.
  - rewrite artifacts_app with (r2 := inl e), artifacts_header.
    apply artifacts_concat.
Qed.

(** A run over latency, fragmentation and RSS files in which only the
    fragmentation file is malformed: the two latency charts exist, the
    fragmentation, RSS and summary charts do not. *)
Lemma renderer_failure_aborts_the_run_witness :
  let lat : Record := {[ "op" := "alloc"; "p50_ns" := "30" ]} in
  let frag : Record :=
    {[ "size_class" := "abc"; "requested" := "60"; "wasted" := "4";
       "efficiency_pct" := "93.7" ]} in
  let rss : Record :=
    {[ "cycle" := "0"; "rss_mib" := "100.0"; "slabs_allocated" := "1";
       "slabs_recycled" := "0" ]} in
  let fs : files := {[ "in/a.csv" := [lat]; "in/b.csv" := [frag]; "in/c.csv" := [rss] ]} in
  let run := main np_mean_seq fs "in" "out" ["a.csv"; "b.csv"; "c.csv"] in
  outcome run = inl (ValueError "abc") /\
  exit_status run = 1 /\
  artifacts run = ["out/latency_percentiles.png"; "out/latency_cdf.png"].
Proof.
  intros lat frag rss fs run.
  pose (steps := steps_of np_mean_seq fs "in" "out" ["a.csv"; "b.csv"; "c.csv"]).
  destruct (renderer_failure_aborts_the_run np_mean_seq fs "in" "out"
              ["a.csv"; "b.csv"; "c.csv"]
              (firstn 2 steps) (skipn 3 steps)
              (plot_fragmentation np_mean_seq [frag] "out") (ValueError "abc"))
    as (_ & _ & Hout & Hexit & _ & Hart).
  - by_length.
  - vm_compute. reflexivity.
  - vm_compute. repeat constructor; exists tt; reflexivity.
  - vm_compute. reflexivity.
  - split; [exact Hout | split; [exact Hexit |]].
    etransitivity; [exact Hart | vm_compute; reflexivity].
Defined.

(** C2 as stated fails: the fragmentation file is malformed and the RSS file
    is sound.  The RSS renderer would draw its chart if it were reached, but
    the run has ended before, with an exception that names the value
    [abc] and not the field, and no chart at all has been written. *)
Lemma malformed_field_stops_later_renderers :
  let frag : Record :=
    {[ "size_class" := "abc"; "requested" := "60"; "wasted" := "4";
       "efficiency_pct" := "93.7" ]} in
  let rss : Record :=
    {[ "cycle" := "0"; "rss_mib" := "100.0"; "slabs_allocated" := "1";
       "slabs_recycled" := "0" ]} in
  let fs : files := {[ "in/b.csv" := [frag]; "in/c.csv" := [rss] ]} in
  let run := main np_mean_seq fs "in" "out" ["b.csv"; "c.csv"] in
  frag_of (loaded fs "in" ["b.csv"; "c.csv"]) = [frag] /\
  rss_of (loaded fs "in" ["b.csv"; "c.csv"]) = [rss] /\
  artifacts (plot_rss_over_time [rss] "out") = ["out/rss_over_time.png"] /\
  outcome run = inl (ValueError "abc") /\
  artifacts run = [].
Proof.
  intros frag rss fs run.
  split; [by_decision |]. split; [by_decision |].
  repeat split; vm_compute; reflexivity.
Qed.

(** ** Renderers on an empty Group *)

(** C4, as amended. Given an empty Group, each renderer that consumes one
    Group returns early: it writes no chart and returns to its caller.  The
    latency-comparison, fragmentation and RSS renderers emit one notice on
    the error stream and nothing else.  The summary card, which combines two
    Groups, has no early return: with both empty it draws the card from the
    zero defaults. *)
Theorem empty_group_is_skipped (np_mean : list float -> float) (output : string) :
  plot_latency_comparison [] output = ([Stderr "No latency data found"], inr tt) /\
  plot_fragmentation np_mean [] output = ([Stderr "No fragmentation data found"], inr tt) /\
  plot_rss_over_time [] output = ([Stderr "No RSS churn data found"], inr tt) /\
  (artifacts (plot_latency_cdf [] output) = [] /\ returns (plot_latency_cdf [] output)) /\
  plot_summary_card np_mean [] [] output =
    ([ Savefig (path_join output "summary.png")
         (SummaryFig float_zero float_zero float_zero float_zero);
       Stdout ("Generated: " +:+ path_join output "summary.png") ], inr tt).
Proof.
  repeat split; try reflexivity. exists tt. reflexivity.
Qed.

(** C4 as stated fails: on an empty Group the latency-CDF renderer returns
    without any notice, and the summary card is written all the same. *)
Lemma empty_group_without_notice_or_skip :
  events (plot_latency_cdf [] "out") = [] /\
  diagnostics (plot_latency_cdf [] "out") = [] /\
  artifacts (plot_summary_card np_mean_seq [] [] "out") = ["out/summary.png"].
Proof. repeat split; reflexivity. Qed.

(** ** RSS growth *)

Lemma head_lookup {A} (l : list A) : l !! 0%nat = head l.
Proof. destruct l; reflexivity. Qed.

Lemma last_lookup' {A} (l : list A) : l !! (length l - 1)%nat = last l.
Proof.
  rewrite last_lookup. f_equal. lia.
Qed.

Lemma growth_of_nonempty (rss_values : list float) :
  rss_values <> [] ->
  exists initial final,
    head rss_values = Some initial /\
    last rss_values = Some final /\
    growth_of rss_values =
      if (initial =? 0)%float then inl ZeroDivisionError
      else inr (initial, final,
                ((final - initial) / initial * float_of_Z 100)%float).
Proof.
  intros Hne. unfold growth_of. rewrite head_lookup, last_lookup'.
  destruct rss_values as [| x xs]; [congruence |].
  destruct (last (x :: xs)) as [final |] eqn:Hlast.
  - exists x, final. repeat split; reflexivity.
  - apply last_None in Hlast. discriminate.
Qed.

(** The renderer on well-formed RSS Records. *)
Lemma plot_rss_over_time_chart data output cycles rss_values allocated recycled g :
  data <> [] ->
  comprehension (fun row => int_field row "cycle") data = inr cycles ->
  comprehension (fun row => float_field row "rss_mib") data = inr rss_values ->
  comprehension (fun row => int_field row "slabs_allocated") data = inr allocated ->
  comprehension (fun row => int_field row "slabs_recycled") data = inr recycled ->
  rss_values <> [] ->
  growth_of rss_values = inr g ->
  plot_rss_over_time data output =
    ([ Savefig (path_join output "rss_over_time.png")
         (RssFig cycles rss_values (Some g) allocated recycled);
       Stdout ("Generated: " +:+ path_join output "rss_over_time.png") ], inr tt).
Proof.
  intros Hd Hc Hr Ha Hrec Hne Hg. unfold plot_rss_over_time.
  destruct data as [| row data]; [congruence |].
  rewrite Hc, Hr, Ha, Hrec. unfold lift. rewrite !bind_value. cbn beta.
  destruct rss_values as [| x xs]; [congruence |].
  rewrite Hg. reflexivity.
Qed.

(** C5, as amended. For a non-empty sequence of [rss_mib] values the derived
    growth is computed from the first and the last value as
    (final - initial) / initial * 100 in binary64 arithmetic, and a zero
    first value raises [ZeroDivisionError].  For 100.0, 100.0, 102.4 the
    result is the double 2.4000000000000057; the renderer annotates the
    chart of the Records carrying these values with it. *)
Theorem growth_percentage_formula (rss_values : list float) :
  rss_values <> [] ->
  (exists initial final,
     head rss_values = Some initial /\
     last rss_values = Some final /\
     growth_of rss_values =
       if (initial =? 0)%float then inl ZeroDivisionError
       else inr (initial, final,
                 ((final - initial) / initial * float_of_Z 100)%float)) /\
  growth_of [100.0; 100.0; 102.4]%float
    = inr (100.0, 102.4, 2.4000000000000057)%float /\
  (forall output,
     let row (cycle rss_mib : string) : Record :=
       {[ "cycle" := cycle; "rss_mib" := rss_mib;
          "slabs_allocated" := "8"; "slabs_recycled" := "8" ]} in
     plot_rss_over_time [row "0" "100.0"; row "1" "100.0"; row "2" "102.4"] output =
       ([ Savefig (path_join output "rss_over_time.png")
            (RssFig [0; 1; 2] [100.0; 100.0; 102.4]%float
               (Some (100.0, 102.4, 2.4000000000000057)%float) [8; 8; 8] [8; 8; 8]);
          Stdout ("Generated: " +:+ path_join output "rss_over_time.png") ], inr tt)).
Proof.
  intros Hne. split; [apply growth_of_nonempty; exact Hne |].
  split; [vm_compute; reflexivity |].
  intros output row.
  apply plot_rss_over_time_chart; try (vm_compute; reflexivity); discriminate.
Qed.

Lemma growth_percentage_formula_witness :
  growth_of [100.0; 100.0; 102.4]%float = inr (100.0, 102.4, 2.4000000000000057)%float.
Proof.
  exact (proj1 (proj2 (growth_percentage_formula [100.0; 100.0; 102.4]%float
                         ltac:(discriminate)))).
Defined.

(** C5 as stated fails: for 100.0, 100.0, 102.4 the derived growth is not
    the double 2.4, and for a sequence that starts at zero no growth is
    derived at all. *)
Lemma growth_is_not_exactly_2_4 :
  (exists g, growth_of [100.0; 100.0; 102.4]%float = inr (100.0, 102.4, g)%float /\
             (g =? 2.4)%float = false /\ g <> 2.4%float) /\
  growth_of [0.0; 1.5]%float = inl ZeroDivisionError.
Proof.
  split; [| vm_compute; reflexivity].
  exists 2.4000000000000057%float. split; [vm_compute; reflexivity |].
  split; [vm_compute; reflexivity |].
  intros H. apply (f_equal (fun x => (x =? 2.4)%float)) in H.
  vm_compute in H. discriminate.
Qed.

(** ** Size-class aggregates *)

Lemma comprehension_map {A B} (f : A -> exn + B) (g : A -> B) (xs : list A) :
  (forall x, x ∈ xs -> f x = inr (g x)) -> comprehension f xs = inr (map g xs).
Proof.
  induction xs as [| x xs IH]; intros H; simpl; [reflexivity |].
  rewrite (H x) by apply list_elem_of_here.
  rewrite IH; [reflexivity |]. intros y Hy. apply H. apply list_elem_of_further. exact Hy.
Qed.

Lemma in_class_true sc row :
  in_class sc row = true <-> row !! "size_class" ≫= py_int = Some sc.
Proof. unfold in_class. apply bool_decide_eq_true. Qed.

Lemma group_row_skip m (row : Record) :
  row !! "size_class" = None -> group_row m row = inr m.
Proof.
  intros H. unfold group_row, has. rewrite H.
  rewrite bool_decide_eq_false_2 by (intros [? ?]; discriminate). reflexivity.
Qed.

Lemma group_row_add m (row : Record) s sc r w x :
  row !! "size_class" = Some s -> py_int s = Some sc ->
  row !! "requested" ≫= py_int = Some r ->
  row !! "wasted" ≫= py_int = Some w ->
  row !! "efficiency_pct" ≫= py_float = Some x ->
  group_row m row =
    inr (<[sc := let acc := default (ClassAcc [] [] []) (m !! sc) in
                 ClassAcc (requested acc ++ [r]) (wasted acc ++ [w])
                          (efficiency acc ++ [x])]> m).
Proof.
  intros Hs Hsc Hr Hw Hx. unfold group_row, has. rewrite Hs.
  rewrite bool_decide_eq_true_2 by eauto. cbn [negb].
  unfold int_field, float_field, getitem. rewrite Hs, Hsc.
  destruct (row !! "requested") as [vr |]; [| discriminate]. simpl in Hr. rewrite Hr.
  destruct (row !! "wasted") as [vw |]; [| discriminate]. simpl in Hw. rewrite Hw.
  destruct (row !! "efficiency_pct") as [vx |]; [| discriminate]. simpl in Hx. rewrite Hx.
  reflexivity.
Qed.

Lemma extend_nil o sc : extend o sc [] = o.
Proof. reflexivity. Qed.

Lemma extend_other o sc row data :
  in_class sc row = false -> extend o sc (row :: data) = extend o sc data.
Proof.
  intros H. unfold extend, requested_of, wasted_of, efficiency_of.
  cbn [List.filter]. rewrite H. reflexivity.
Qed.

Lemma omap_cons_Some {A B} (f : A -> option B) x l y :
  f x = Some y -> omap f (x :: l) = y :: omap f l.
Proof. intros H. simpl. rewrite H. reflexivity. Qed.

Lemma extend_same o sc row data r w x :
  in_class sc row = true ->
  row !! "requested" ≫= py_int = Some r ->
  row !! "wasted" ≫= py_int = Some w ->
  row !! "efficiency_pct" ≫= py_float = Some x ->
  extend o sc (row :: data) =
  extend (Some (let acc := default (ClassAcc [] [] []) o in
                ClassAcc (requested acc ++ [r]) (wasted acc ++ [w])
                         (efficiency acc ++ [x]))) sc data.
Proof.
  intros H Hr Hw Hx. unfold extend, requested_of, wasted_of, efficiency_of.
  cbn [List.filter]. rewrite H.
  rewrite (omap_cons_Some (fun row : Record => row !! "requested" ≫= py_int) row _ r Hr).
  rewrite (omap_cons_Some (fun row : Record => row !! "wasted" ≫= py_int) row _ w Hw).
  rewrite (omap_cons_Some (fun row : Record => row !! "efficiency_pct" ≫= py_float)
             row _ x Hx).
  destruct (List.filter (in_class sc) data) as [| row' rows].
  - reflexivity.
  - cbv zeta. set (acc := default (ClassAcc [] [] []) o).
    change (default (ClassAcc [] [] []) (Some ?a)) with a.
    cbn [requested wasted efficiency]. rewrite <- !app_assoc. reflexivity.
Qed.

Lemma group_rows_spec data :
  Forall frag_row_ok data ->
  forall m0, exists m,
    group_rows m0 data = inr m /\ forall sc, m !! sc = extend (m0 !! sc) sc data.
Proof.
  induction 1 as [| row data Hrow _ IH]; intros m0.
  - exists m0. split; [reflexivity | intros sc; reflexivity].
  - cbn [group_rows]. destruct (row !! "size_class") as [s |] eqn:Hs.
    + destruct (Hrow ltac:(eauto)) as ([sc Hsc] & [r Hr] & [w Hw] & [x Hx]).
      rewrite Hs in Hsc. simpl in Hsc.
      rewrite (group_row_add m0 row s sc r w x Hs Hsc Hr Hw Hx).
      destruct (IH (<[sc := let acc := default (ClassAcc [] [] []) (m0 !! sc) in
                            ClassAcc (requested acc ++ [r]) (wasted acc ++ [w])
                                     (efficiency acc ++ [x])]> m0))
        as (m & Hm & Hlook).
      exists m. split; [exact Hm |]. intros sc'. rewrite Hlook.
      destruct (decide (sc = sc')) as [<- | Hne].
      * rewrite lookup_insert_eq. symmetry.
        apply extend_same; try assumption.
        apply in_class_true. rewrite Hs. exact Hsc.
      * rewrite lookup_insert_ne by exact Hne. symmetry.
        apply extend_other. apply not_true_is_false. intros Hc.
        apply in_class_true in Hc. rewrite Hs in Hc. simpl in Hc. congruence.
    + rewrite (group_row_skip m0 row Hs).
      destruct (IH m0) as (m & Hm & Hlook).
      exists m. split; [exact Hm |]. intros sc. rewrite Hlook. symmetry.
      apply extend_other. apply not_true_is_false. intros Hc.
      apply in_class_true in Hc. rewrite Hs in Hc. discriminate.
Qed.

Lemma sorted_keys_elem (m : gmap Z class_acc) sc :
  sc ∈ sorted_keys m <-> is_Some (m !! sc).
Proof.
  unfold sorted_keys. rewrite merge_sort_Permutation, list_elem_of_fmap.
  split.
  - intros [[k acc] [-> Hin]]. apply elem_of_map_to_list in Hin. eauto.
  - intros [acc Hacc]. exists (sc, acc). split; [reflexivity |].
    apply elem_of_map_to_list. exact Hacc.
Qed.

Lemma strictly_sorted (l : list Z) :
  Sorted Z.le l -> NoDup l -> StronglySorted Z.lt l.
Proof.
  intros Hs Hn. apply (Sorted_StronglySorted Z.le) in Hs.
  induction Hs as [| x l Hs IH Hall]; [constructor |].
  apply NoDup_cons in Hn as [Hx Hn]. constructor; [apply IH; exact Hn |].
  rewrite List.Forall_forall in *. intros y Hy.
  specialize (Hall y Hy).
  assert (x <> y) by (intros ->; apply Hx, list_elem_of_In; exact Hy). lia.
Qed.

Lemma sorted_keys_ascending (m : gmap Z class_acc) : StronglySorted Z.lt (sorted_keys m).
Proof.
  apply strictly_sorted.
  - unfold sorted_keys. apply Sorted_merge_sort. intros x y. apply Z.le_ge_cases.
  - unfold sorted_keys. rewrite merge_sort_Permutation. apply NoDup_fst_map_to_list.
Qed.

Lemma extend_None_Some sc data acc :
  extend None sc data = Some acc ->
  acc = ClassAcc (requested_of sc data) (wasted_of sc data) (efficiency_of sc data) /\
  exists row, row ∈ data /\ row !! "size_class" ≫= py_int = Some sc.
Proof.
  unfold extend. destruct (List.filter (in_class sc) data) as [| row rows] eqn:Hf.
  - discriminate.
  - intros [= <-]. split; [reflexivity |].
    assert (Hin : row ∈ List.filter (in_class sc) data)
      by (rewrite Hf; apply list_elem_of_here).
    apply elem_of_filter_bool in Hin as [Hin Hc].
    exists row. split; [exact Hin | apply in_class_true; exact Hc].
Qed.

Lemma extend_None_is_Some sc data (row : Record) :
  row ∈ data -> row !! "size_class" ≫= py_int = Some sc ->
  is_Some (extend None sc data).
Proof.
  intros Hin Hc. unfold extend.
  destruct (List.filter (in_class sc) data) as [| row' rows] eqn:Hf; [| eauto].
  assert (Hrow : row ∈ List.filter (in_class sc) data).
  { apply elem_of_filter_bool. split; [exact Hin | apply in_class_true; exact Hc]. }
  rewrite Hf in Hrow. apply elem_of_nil in Hrow. contradiction.
Qed.

(** The chart [plot_fragmentation] writes for well-formed Records. *)
Lemma plot_fragmentation_chart (np_mean : list float -> float) data output :
  data <> [] -> Forall frag_row_ok data ->
  exists classes,
    plot_fragmentation np_mean data output =
      ([ Savefig (path_join output "fragmentation.png")
           (FragmentationFig classes
              (map (fun sc => np_mean (float_of_Z <$> wasted_of sc data)) classes)
              (map (fun sc => np_mean (efficiency_of sc data)) classes));
         Stdout ("Generated: " +:+ path_join output "fragmentation.png") ], inr tt) /\
    StronglySorted Z.lt classes /\
    forall sc, sc ∈ classes <->
               exists row, row ∈ data /\ row !! "size_class" ≫= py_int = Some sc.
Proof.
  intros Hne Hok. destruct (group_rows_spec data Hok ∅) as (m & Hm & Hlook).
  assert (Hlook' : forall sc, m !! sc = extend None sc data).
  { intros sc. rewrite Hlook, lookup_empty. reflexivity. }
  exists (sorted_keys m). split; [| split].
  - unfold plot_fragmentation. destruct data as [| row data]; [congruence |].
    rewrite Hm. unfold lift. rewrite bind_value. cbn beta.
    rewrite (comprehension_map _
               (fun sc => np_mean (float_of_Z <$> wasted_of sc (row :: data)))).
    2:{ intros sc Hsc. apply sorted_keys_elem in Hsc as [acc Hacc].
        unfold class_of. rewrite Hacc. rewrite Hlook' in Hacc.
        apply extend_None_Some in Hacc as [-> _]. reflexivity. }
    rewrite bind_value. cbn beta.
    rewrite (comprehension_map _
               (fun sc => np_mean (efficiency_of sc (row :: data)))).
    2:{ intros sc Hsc. apply sorted_keys_elem in Hsc as [acc Hacc].
        unfold class_of. rewrite Hacc. rewrite Hlook' in Hacc.
        apply extend_None_Some in Hacc as [-> _]. reflexivity. }
    reflexivity.
  - apply sorted_keys_ascending.
  - intros sc. rewrite sorted_keys_elem, Hlook'. split.
    + intros [acc Hacc]. apply extend_None_Some in Hacc as [_ H]. exact H.
    + intros (row & Hin & Hc). eapply extend_None_is_Some; eassumption.
Qed.

(** C6, as amended. For a fragmentation Group whose Records are well formed (every
    Record with a size class has the four numeric fields, and they parse),
    the renderer charts, for each distinct size-class integer and in strictly
    ascending order of it, the mean of [wasted] and the mean of
    [efficiency_pct] over all the Records of that class in arrival order:
    Records of one class accumulate, none overwrites another.  For two
    Records of class 64 with wasted 10 and 20 and efficiency 90 and 80, each
    with a well-formed [requested], the chart holds the one class 64 with
    mean waste 15 and mean efficiency 85. *)
Theorem size_class_means (np_mean : list float -> float) (data : list Record)
    (output : string) :
  data <> [] -> Forall frag_row_ok data ->
  (exists classes,
     plot_fragmentation np_mean data output =
       ([ Savefig (path_join output "fragmentation.png")
            (FragmentationFig classes
               (map (fun sc => np_mean (float_of_Z <$> wasted_of sc data)) classes)
               (map (fun sc => np_mean (efficiency_of sc data)) classes));
          Stdout ("Generated: " +:+ path_join output "fragmentation.png") ], inr tt) /\
     StronglySorted Z.lt classes /\
     forall sc, sc ∈ classes <->
                exists row, row ∈ data /\ row !! "size_class" ≫= py_int = Some sc) /\
  (forall requested1 requested2 : string,
     is_Some (py_int requested1) -> is_Some (py_int requested2) ->
     let row (requested wasted efficiency_pct : string) : Record :=
       {[ "size_class" := "64"; "requested" := requested;
          "wasted" := wasted; "efficiency_pct" := efficiency_pct ]} in
     plot_fragmentation np_mean_seq
       [row requested1 "10" "90"; row requested2 "20" "80"] output =
       ([ Savefig (path_join output "fragmentation.png")
            (FragmentationFig [64] [15%float] [85.0%float]);
          Stdout ("Generated: " +:+ path_join output "fragmentation.png") ], inr tt)).
Proof.
  intros Hne Hok. split; [apply plot_fragmentation_chart; assumption |].
  intros requested1 requested2 [z1 Hz1] [z2 Hz2] row.
  unfold plot_fragmentation. cbn [group_rows].
  rewrite (group_row_add ∅ (row requested1 "10" "90") "64" 64 z1 10 90%float);
    [| reflexivity | reflexivity | exact Hz1 | reflexivity | reflexivity ].
  rewrite (group_row_add _ (row requested2 "20" "80") "64" 64 z2 20 80%float);
    [| reflexivity | reflexivity | exact Hz2 | reflexivity | reflexivity ].
  vm_compute. reflexivity.
Qed.

Lemma size_class_means_witness :
  let row (wasted efficiency_pct : string) : Record :=
    {[ "size_class" := "64"; "requested" := "54";
       "wasted" := wasted; "efficiency_pct" := efficiency_pct ]} in
  exists classes,
    plot_fragmentation np_mean_seq [row "10" "90"; row "20" "80"] "out" =
      ([ Savefig "out/fragmentation.png"
           (FragmentationFig classes
              (map (fun sc => np_mean_seq
                      (float_of_Z <$> wasted_of sc [row "10" "90"; row "20" "80"]))
                 classes)
              (map (fun sc => np_mean_seq
                      (efficiency_of sc [row "10" "90"; row "20" "80"])) classes));
         Stdout "Generated: out/fragmentation.png" ], inr tt) /\
    StronglySorted Z.lt classes.
Proof.
  intros row.
  destruct (size_class_means np_mean_seq [row "10" "90"; row "20" "80"] "out")
    as [(classes & Hplot & Hsorted & _) _].
  - discriminate.
  - constructor; [| constructor; [| constructor]];
      intros _; vm_compute; repeat split; eexists; reflexivity.
  - exists classes. split; [exact Hplot | exact Hsorted].
Defined.

(** C6 as stated fails: its two Records, which carry a size class, a waste
    and an efficiency and no [requested] field, yield no aggregate; the
    grouping loop reads [requested] and raises. *)
Lemma example_records_lack_requested :
  let row (wasted efficiency_pct : string) : Record :=
    {[ "size_class" := "64"; "wasted" := wasted; "efficiency_pct" := efficiency_pct ]} in
  group_rows ∅ [row "10" "90"; row "20" "80"] = inl (KeyError "requested") /\
  plot_fragmentation np_mean_seq [row "10" "90"; row "20" "80"] "out" =
    ([], inl (KeyError "requested")).
Proof. split; vm_compute; reflexivity. Qed.


(** ** Latency: the first Record of each operation *)

Lemma op_is_true name (row : Record) : op_is name row = true <-> row !! "op" = Some name.
Proof. unfold op_is. apply bool_decide_eq_true. Qed.

Lemma head_filter_first_per_op name data :
  forall seen, Some name ∉ seen ->
  head (List.filter (op_is name) (first_per_op seen data)) =
  head (List.filter (op_is name) data).
Proof.
  induction data as [| row data IH]; intros seen Hseen; [reflexivity |].
  cbn [first_per_op List.filter].
  destruct (op_is name row) eqn:Hop.
  - apply op_is_true in Hop.
    rewrite bool_decide_eq_false_2 by (rewrite Hop; exact Hseen).
    cbn [List.filter]. rewrite (proj2 (op_is_true name row) Hop). reflexivity.
  - assert (Hne : row !! "op" <> Some name).
    { intros Hc. apply op_is_true in Hc. congruence. }
    destruct (bool_decide (row !! "op" ∈ seen)).
    + apply IH. exact Hseen.
    + cbn [List.filter]. rewrite Hop. apply IH.
      intros Hin. apply elem_of_cons in Hin as [Heq | Hin]; [congruence | contradiction].
Qed.

Lemma first_per_op_nonempty data : nonempty (first_per_op [] data) = nonempty data.
Proof.
  destruct data as [| row data]; [reflexivity |].
  cbn [first_per_op].
  rewrite bool_decide_eq_false_2 by (intros H; apply elem_of_nil in H; exact H).
  reflexivity.
Qed.

(** The latency renderers read their input only through its emptiness and
    through the first [alloc] and the first [free] Record. *)
Lemma plot_latency_comparison_ext data data' output :
  nonempty data = nonempty data' ->
  head (List.filter (op_is "alloc") data) = head (List.filter (op_is "alloc") data') ->
  head (List.filter (op_is "free") data) = head (List.filter (op_is "free") data') ->
  plot_latency_comparison data output = plot_latency_comparison data' output.
Proof.
  intros Hn Ha Hf. unfold plot_latency_comparison.
  destruct data as [| r l], data' as [| r' l']; try discriminate; [reflexivity |].
  destruct (List.filter (op_is "alloc") (r :: l)) as [| a la],
           (List.filter (op_is "alloc") (r' :: l')) as [| a' la'];
    try discriminate; [reflexivity |].
  injection Ha as <-.
  destruct (List.filter (op_is "free") (r :: l)) as [| f lf],
           (List.filter (op_is "free") (r' :: l')) as [| f' lf'];
    try discriminate; [reflexivity |].
  injection Hf as <-. reflexivity.
Qed.

Lemma plot_latency_cdf_ext data data' output :
  head (List.filter (op_is "alloc") data) = head (List.filter (op_is "alloc") data') ->
  plot_latency_cdf data output = plot_latency_cdf data' output.
Proof.
  intros Ha. unfold plot_latency_cdf.
  destruct (List.filter (op_is "alloc") data) as [| a la],
           (List.filter (op_is "alloc") data') as [| a' la'];
    try discriminate; [reflexivity |].
  injection Ha as <-. reflexivity.
Qed.

Lemma plot_summary_card_ext np_mean data data' frag_data output :
  head (List.filter (op_is "alloc") data) = head (List.filter (op_is "alloc") data') ->
  plot_summary_card np_mean data frag_data output =
  plot_summary_card np_mean data' frag_data output.
Proof. intros Ha. unfold plot_summary_card. rewrite Ha. reflexivity. Qed.

Lemma not_elem_of_nil_op (o : option string) : o ∉ ([] : list (option string)).
Proof. intros H. apply elem_of_nil in H. exact H. Qed.

(** A Record whose [op] value has already been met leaves [first_per_op]
    unchanged. *)
Lemma first_per_op_drop_later before later after :
  forall seen,
  (later !! "op" ∈ seen \/ exists row, row ∈ before /\ row !! "op" = later !! "op") ->
  first_per_op seen (before ++ later :: after) = first_per_op seen (before ++ after).
Proof.
  induction before as [| row before IH]; intros seen Hmet.
  - cbn [app first_per_op]. destruct Hmet as [Hin | (row & Hin & _)].
    + rewrite bool_decide_eq_true_2 by exact Hin. reflexivity.
    + apply elem_of_nil in Hin. contradiction.
  - cbn [app first_per_op].
    destruct (bool_decide (row !! "op" ∈ seen)) eqn:Hrow.
    + apply IH. destruct Hmet as [Hin | (row' & Hin & Heq)]; [left; exact Hin |].
      apply elem_of_cons in Hin as [-> | Hin].
      * left. rewrite <- Heq. apply bool_decide_eq_true in Hrow. exact Hrow.
      * right. exists row'. split; assumption.
    + f_equal. apply IH. destruct Hmet as [Hin | (row' & Hin & Heq)].
      * left. apply list_elem_of_further. exact Hin.
      * apply elem_of_cons in Hin as [-> | Hin].
        -- left. rewrite <- Heq. apply list_elem_of_here.
        -- right. exists row'. split; assumption.
Qed.

Section FirstPerOp.

Variable np_mean : list float -> float.

Lemma latency_charts_first_per_op data frag_data output :
  latency_charts np_mean (first_per_op [] data) frag_data output =
  latency_charts np_mean data frag_data output.
Proof.
  unfold latency_charts.
  pose proof (head_filter_first_per_op "alloc" data [] (not_elem_of_nil_op _)) as Ha.
  pose proof (head_filter_first_per_op "free" data [] (not_elem_of_nil_op _)) as Hf.
  rewrite (plot_latency_comparison_ext _ data output
             (first_per_op_nonempty data) Ha Hf).
  rewrite (plot_latency_cdf_ext _ data output Ha).
  rewrite (plot_summary_card_ext np_mean _ data frag_data output Ha).
  reflexivity.
Qed.

(** C7. The charts drawn from a latency Group (percentile comparison, CDF
    and summary card) are those drawn from the Group reduced to the first
    Record of each [op] value, in arrival order: nothing is aggregated over
    the Records of one [op].  Hence a later Record whose [op] value an
    earlier Record already carries changes none of them. *)
Theorem only_first_record_per_op (data frag_data : list Record) (output : string) :
  latency_charts np_mean (first_per_op [] data) frag_data output =
    latency_charts np_mean data frag_data output /\
  (forall before first between later after,
     data = before ++ first :: between ++ later :: after ->
     later !! "op" = first !! "op" ->
     latency_charts np_mean data frag_data output =
       latency_charts np_mean (before ++ first :: between ++ after) frag_data output).
Proof.
  split; [apply latency_charts_first_per_op |].
  intros before first between later after -> Hop.
  rewrite <- (latency_charts_first_per_op (before ++ first :: between ++ later :: after)).
  rewrite <- (latency_charts_first_per_op (before ++ first :: between ++ after)).
  f_equal.
  change (before ++ first :: between ++ later :: after)
    with (before ++ (first :: between) ++ later :: after).
  change (before ++ first :: between ++ after)
    with (before ++ (first :: between) ++ after).
  rewrite !app_assoc. apply first_per_op_drop_later.
  right. exists first. split; [| symmetry; exact Hop].
  apply elem_of_app. right. apply list_elem_of_here.
Qed.

End FirstPerOp.

(** Two [alloc] rows and a [free] row: the second [alloc] row is not read. *)
Lemma only_first_record_per_op_witness :
  let a1 : Record := {[ "op" := "alloc"; "p50_ns" := "30" ]} in
  let a2 : Record := {[ "op" := "alloc"; "p50_ns" := "9000" ]} in
  let f1 : Record := {[ "op" := "free"; "p50_ns" := "20" ]} in
  latency_charts np_mean_seq [a1; f1; a2] [] "out" =
  latency_charts np_mean_seq [a1; f1] [] "out".
Proof.
  intros a1 a2 f1.
  exact (proj2 (only_first_record_per_op np_mean_seq [a1; f1; a2] [] "out")
           [] a1 [f1] a2 [] eq_refl eq_refl).
Defined.

(** ** Latency comparison without a [free] row *)

Lemma comprehension_total {A B} (f : A -> exn + B) (xs : list A) :
  (forall x, x ∈ xs -> exists y, f x = inr y) ->
  exists ys, comprehension f xs = inr ys /\ length ys = length xs.
Proof.
  induction xs as [| x xs IH]; intros H; [exists []; split; reflexivity |].
  destruct (H x (list_elem_of_here _ _)) as [y Hy].
  destruct IH as (ys & Hys & Hlen).
  { intros x' Hx'. apply H. apply list_elem_of_further. exact Hx'. }
  exists (y :: ys). cbn [comprehension]. rewrite Hy, Hys.
  split; [reflexivity | simpl; rewrite Hlen; reflexivity].
Qed.

Lemma comprehension_inr_all {A B} (f : A -> exn + B) (xs : list A) ys :
  comprehension f xs = inr ys -> forall x, x ∈ xs -> exists y, f x = inr y.
Proof.
  revert ys. induction xs as [| x xs IH]; intros ys H x' Hx'.
  - apply elem_of_nil in Hx'. contradiction.
  - cbn [comprehension] in H. destruct (f x) as [e | y] eqn:Hfx; [discriminate |].
    destruct (comprehension f xs) as [e | ys'] eqn:Hxs; [discriminate |].
    apply elem_of_cons in Hx' as [-> | Hx']; [eauto | eapply IH; eauto].
Qed.

(** The first exception of a comprehension is one its function raises. *)
Lemma comprehension_inl {A B} (f : A -> exn + B) (xs : list A) (P : exn -> Prop) :
  (forall x e, x ∈ xs -> f x = inl e -> P e) ->
  (exists x e, x ∈ xs /\ f x = inl e) ->
  exists e, comprehension f xs = inl e /\ P e.
Proof.
  induction xs as [| x xs IH]; intros HP (x0 & e0 & Hin & Hf).
  - apply elem_of_nil in Hin. contradiction.
  - cbn [comprehension]. destruct (f x) as [e | y] eqn:Hfx.
    + exists e. split; [reflexivity |]. eapply HP; [apply list_elem_of_here | exact Hfx].
    + destruct IH as (e & He & HPe).
      * intros x' e' Hx' Hf'. eapply HP; [apply list_elem_of_further; exact Hx' | exact Hf'].
      * apply elem_of_cons in Hin as [-> | Hin]; [congruence |].
        exists x0, e0. split; assumption.
      * exists e. rewrite He. split; [reflexivity | exact HPe].
Qed.

Lemma comprehension_inl_source {A B} (f : A -> exn + B) (xs : list A) e :
  comprehension f xs = inl e -> exists x, x ∈ xs /\ f x = inl e.
Proof.
  induction xs as [| x xs IH]; cbn [comprehension]; [discriminate |].
  destruct (f x) as [e' | y] eqn:Hfx.
  - intros [= ->]. exists x. split; [apply list_elem_of_here | exact Hfx].
  - destruct (comprehension f xs) as [e' | ys]; [| discriminate].
    intros [= ->]. destruct (IH eq_refl) as (x' & Hx' & Hf').
    exists x'. split; [apply list_elem_of_further; exact Hx' | exact Hf'].
Qed.

Lemma float_get_ok (row : Record) m : metric_ok row m -> exists x, float_get row m = inr x.
Proof.
  intros Hok. unfold float_get. destruct (row !! m) as [v |] eqn:Hv; [| eauto].
  destruct (Hok v Hv) as [x Hx]. rewrite Hx. eauto.
Qed.

(** C8, as amended. A latency Group with at least one [alloc] Record and no [free]
    Record, the percentile fields of its first [alloc] Record being absent
    or well formed: the latency-comparison renderer still writes its chart,
    with four [alloc] bars and the four [free] bars at zero. *)
Theorem missing_free_row_is_zero_filled (data : list Record) (output : string)
    (alloc_row : Record) :
  head (List.filter (op_is "alloc") data) = Some alloc_row ->
  (forall row, row ∈ data -> row !! "op" <> Some "free") ->
  Forall (metric_ok alloc_row) metrics ->
  exists alloc_vals,
    length alloc_vals = 4%nat /\
    plot_latency_comparison data output =
      ([ Savefig (path_join output "latency_percentiles.png")
           (LatencyPercentilesFig alloc_vals [0; 0; 0; 0]%float);
         Stdout ("Generated: " +:+ path_join output "latency_percentiles.png") ],
       inr tt).
Proof.
  intros Halloc Hfree Hok.
  assert (Hnofree : List.filter (op_is "free") data = []).
  { destruct (List.filter (op_is "free") data) as [| row rows] eqn:Hf; [reflexivity |].
    assert (Hin : row ∈ List.filter (op_is "free") data)
      by (rewrite Hf; apply list_elem_of_here).
    apply elem_of_filter_bool in Hin as [Hin Hop]. apply op_is_true in Hop.
    destruct (Hfree row Hin Hop). }
  destruct (comprehension_total (float_get alloc_row) metrics) as (alloc_vals & Hvals & Hlen).
  { intros m Hm. apply float_get_ok. rewrite List.Forall_forall in Hok.
    apply Hok. apply list_elem_of_In. exact Hm. }
  exists alloc_vals. split; [exact Hlen |].
  unfold plot_latency_comparison.
  destruct data as [| row data]; [discriminate |].
  rewrite Hnofree.
  destruct (List.filter (op_is "alloc") (row :: data)) as [| a rest]; [discriminate |].
  injection Halloc as ->. rewrite Hvals. reflexivity.
Qed.

Lemma missing_free_row_is_zero_filled_witness :
  let a : Record := {[ "op" := "alloc"; "p50_ns" := "30"; "p95_ns" := "55";
                       "p99_ns" := "374"; "p999_ns" := "1137" ]} in
  exists alloc_vals,
    length alloc_vals = 4%nat /\
    plot_latency_comparison [a] "out" =
      ([ Savefig "out/latency_percentiles.png"
           (LatencyPercentilesFig alloc_vals [0; 0; 0; 0]%float);
         Stdout "Generated: out/latency_percentiles.png" ], inr tt).
Proof.
  intros a. apply (missing_free_row_is_zero_filled [a] "out" a).
  - reflexivity.
  - intros row Hin. apply list_elem_of_singleton in Hin as ->. vm_compute. discriminate.
  - metrics_ok.
Defined.

(** C8 as stated fails: a Group with one [alloc] Record, no [free] Record
    and a malformed [p50_ns]; the renderer raises and writes nothing. *)
Lemma malformed_alloc_row_writes_no_chart :
  let a : Record := {[ "op" := "alloc"; "p50_ns" := "abc" ]} in
  a !! "op" = Some "alloc" /\
  List.filter (op_is "free") [a] = [] /\
  plot_latency_comparison [a] "out" = ([], inl (ValueError "abc")) /\
  artifacts (plot_latency_comparison [a] "out") = [].
Proof.
  intros a. split; [vm_compute; reflexivity |]. split; [by_decision |].
  split; vm_compute; reflexivity.
Qed.


(** ** RSS Records without slab counts *)

Lemma int_field_inr (row : Record) key :
  is_Some (row !! key ≫= py_int) -> exists z, int_field row key = inr z.
Proof.
  intros [z Hz]. unfold int_field, getitem.
  destruct (row !! key) as [v |]; [| discriminate]. simpl in Hz. rewrite Hz. eauto.
Qed.

Lemma float_field_inr (row : Record) key :
  is_Some (row !! key ≫= py_float) -> exists x, float_field row key = inr x.
Proof.
  intros [x Hx]. unfold float_field, getitem.
  destruct (row !! key) as [v |]; [| discriminate]. simpl in Hx. rewrite Hx. eauto.
Qed.

Lemma int_field_missing (row : Record) key :
  row !! key = None -> int_field row key = inl (KeyError key).
Proof. intros H. unfold int_field, getitem. rewrite H. reflexivity. Qed.

Lemma int_field_present_ok (row : Record) key e :
  (forall v, row !! key = Some v -> is_Some (py_int v)) ->
  int_field row key = inl e -> e = KeyError key.
Proof.
  intros Hok. unfold int_field, getitem. destruct (row !! key) as [v |] eqn:Hv.
  - destruct (Hok v eq_refl) as [z Hz]. rewrite Hz. discriminate.
  - intros [= <-]. reflexivity.
Qed.

Lemma raises_no_chart {A} (m : io A) : tidy m -> raises m -> events m = [] /\ artifacts m = [].
Proof.
  intros Ht [e He]. destruct m as [t r]. unfold outcome in He; simpl in He; subst r.
  destruct Ht as [-> _]. split; reflexivity.
Qed.

(** C10, as amended. Classification into [rss_churn] asks for [cycle] and [rss_mib]
    only, but the renderer also reads the slab counts of every Record.  If
    some Record of the Group lacks [slabs_allocated] or [slabs_recycled],
    the renderer raises before it writes anything.  When the numeric fields
    of the Group are otherwise well formed, what it raises is the [KeyError]
    of the missing field. *)
Theorem missing_slab_field_raises (data : list Record) (output : string) (row : Record) :
  row ∈ data ->
  is_rss row = true ->
  row !! "slabs_allocated" = None \/ row !! "slabs_recycled" = None ->
  (raises (plot_rss_over_time data output) /\
   events (plot_rss_over_time data output) = [] /\
   artifacts (plot_rss_over_time data output) = []) /\
  (Forall rss_row_ok data ->
   exists key,
     (key = "slabs_allocated" \/ key = "slabs_recycled") /\
     plot_rss_over_time data output = ([], inl (KeyError key))).
Proof.
  intros Hin _ Hlack.
  assert (Hkey : Forall rss_row_ok data ->
                 exists key,
                   (key = "slabs_allocated" \/ key = "slabs_recycled") /\
                   plot_rss_over_time data output = ([], inl (KeyError key))).
  { intros Hok. rewrite List.Forall_forall in Hok.
    assert (Hok' : forall r, r ∈ data -> rss_row_ok r).
    { intros r Hr. apply Hok. apply list_elem_of_In. exact Hr. }
    unfold plot_rss_over_time. destruct data as [| r0 data0] eqn:Hd.
    { apply elem_of_nil in Hin. contradiction. }
    rewrite <- Hd in *. clear Hd.
    destruct (comprehension_total (fun r => int_field r "cycle") data)
      as (cycles & -> & _).
    { intros r Hr. apply int_field_inr. apply (Hok' r Hr). }
    destruct (comprehension_total (fun r => float_field r "rss_mib") data)
      as (rss_values & -> & _).
    { intros r Hr. apply float_field_inr. apply (Hok' r Hr). }
    unfold lift. rewrite !bind_value. cbn beta.
    destruct (comprehension (fun r => int_field r "slabs_allocated") data)
      as [e | allocated] eqn:Ha.
    - destruct (comprehension_inl_source _ _ _ Ha) as (r & Hr & Hf).
      apply int_field_present_ok in Hf; [| apply (Hok' r Hr)]. subst e.
      exists "slabs_allocated". split; [left; reflexivity | reflexivity].
    - rewrite bind_value. cbn beta.
      destruct (comprehension_inl (fun r => int_field r "slabs_recycled") data
                  (fun e => e = KeyError "slabs_recycled")) as (e' & He' & ->).
      + intros r e' Hr Hf. eapply int_field_present_ok; [| exact Hf].
        apply (Hok' r Hr).
      + exists row. destruct Hlack as [Hl | Hl].
        * destruct (comprehension_inr_all _ _ _ Ha row Hin) as [z Hz].
          rewrite (int_field_missing row _ Hl) in Hz. discriminate.
        * exists (KeyError "slabs_recycled"). split; [exact Hin |].
          apply int_field_missing. exact Hl.
      + exists "slabs_recycled". split; [right; reflexivity |].
        rewrite He'. reflexivity. }
  split; [| exact Hkey].
  assert (Hraise : raises (plot_rss_over_time data output)).
  { unfold plot_rss_over_time. destruct data as [| r0 data0] eqn:Hd.
    { apply elem_of_nil in Hin. contradiction. }
    rewrite <- Hd in *. clear Hd. unfold lift.
    destruct (comprehension (fun r => int_field r "cycle") data) as [e | cycles];
      [eexists; reflexivity |].
    rewrite bind_value. cbn beta.
    destruct (comprehension (fun r => float_field r "rss_mib") data) as [e | rss];
      [eexists; reflexivity |].
    rewrite bind_value. cbn beta.
    destruct (comprehension (fun r => int_field r "slabs_allocated") data)
      as [e | allocated] eqn:Ha; [eexists; reflexivity |].
    rewrite bind_value. cbn beta.
    destruct (comprehension (fun r => int_field r "slabs_recycled") data)
      as [e | recycled] eqn:Hr; [eexists; reflexivity |].
    exfalso. destruct Hlack as [Hl | Hl].
    - destruct (comprehension_inr_all _ _ _ Ha row Hin) as [z Hz].
      rewrite (int_field_missing row _ Hl) in Hz. discriminate.
    - destruct (comprehension_inr_all _ _ _ Hr row Hin) as [z Hz].
      rewrite (int_field_missing row _ Hl) in Hz. discriminate. }
  split; [exact Hraise |].
  apply raises_no_chart; [apply tidy_plot_rss_over_time | exact Hraise].
Qed.

(** Three RSS samples as the classifier accepts them, without slab counts. *)
Lemma missing_slab_field_raises_witness :
  let row (cycle rss_mib : string) : Record :=
    {[ "cycle" := cycle; "rss_mib" := rss_mib ]} in
  let data := [row "0" "100.0"; row "1" "100.0"; row "2" "102.4"] in
  rss_of data = data /\
  exists key,
    (key = "slabs_allocated" \/ key = "slabs_recycled") /\
    plot_rss_over_time data "out" = ([], inl (KeyError key)).
Proof.
  intros row data. split; [vm_compute; reflexivity |].
  refine (proj2 (missing_slab_field_raises data "out" (row "0" "100.0") _ _ _) _).
  - apply list_elem_of_here.
  - vm_compute. reflexivity.
  - left. vm_compute. reflexivity.
  - repeat (apply List.Forall_cons;
            [split; [parses | split; [parses | split; metric_ok_tac]] |]).
    apply List.Forall_nil.
Defined.

(** C10 as stated fails: an RSS Record without slab counts whose [cycle] is
    malformed; the renderer raises [ValueError] at the first field it reads,
    not [KeyError]. *)
Lemma malformed_cycle_raises_first :
  let row : Record := {[ "cycle" := "abc"; "rss_mib" := "1.0" ]} in
  is_rss row = true /\
  row !! "slabs_allocated" = None /\
  row !! "slabs_recycled" = None /\
  plot_rss_over_time [row] "out" = ([], inl (ValueError "abc")).
Proof. repeat split; vm_compute; reflexivity. Qed.


(** * Further properties of the renderers and of [main] *)

(** ** The latency charts *)

Lemma float_get_value (row : Record) m :
  metric_ok row m -> float_get row m = inr (metric_value row m).
Proof.
  intros Hok. unfold float_get, metric_value.
  destruct (row !! m) as [v |] eqn:Hv; [| reflexivity].
  destruct (Hok v Hv) as [x Hx]. simpl. rewrite Hx. reflexivity.
Qed.

Lemma comprehension_metrics (row : Record) (ms : list string) :
  Forall (metric_ok row) ms ->
  comprehension (float_get row) ms = inr (map (metric_value row) ms).
Proof.
  intros Hok. apply comprehension_map. intros m Hm.
  apply float_get_value. rewrite List.Forall_forall in Hok.
  apply Hok. apply list_elem_of_In. exact Hm.
Qed.

(** X1. The comparison chart of a latency Group whose first [alloc] Record
    (and first [free] Record, if there is one) has well-formed percentile
    fields: each bar is the parsed field of that Record, a field the Record
    does not have is drawn as zero, and without a [free] Record all four
    [free] bars are zero. *)
Theorem latency_comparison_bars (data : list Record) (output : string)
    (alloc_row : Record) :
  head (List.filter (op_is "alloc") data) = Some alloc_row ->
  Forall (metric_ok alloc_row) metrics ->
  (forall free_row, head (List.filter (op_is "free") data) = Some free_row ->
                    Forall (metric_ok free_row) metrics) ->
  plot_latency_comparison data output =
    ([ Savefig (path_join output "latency_percentiles.png")
         (LatencyPercentilesFig
            (map (metric_value alloc_row) metrics)
            (match head (List.filter (op_is "free") data) with
             | Some free_row => map (metric_value free_row) metrics
             | None => [0; 0; 0; 0]%float
             end));
       Stdout ("Generated: " +:+ path_join output "latency_percentiles.png") ],
     inr tt).
Proof.
  intros Halloc Hok Hfree. unfold plot_latency_comparison.
  destruct data as [| row data]; [discriminate |].
  destruct (List.filter (op_is "alloc") (row :: data)) as [| a rest]; [discriminate |].
  injection Halloc as ->. rewrite (comprehension_metrics _ _ Hok).
  destruct (List.filter (op_is "free") (row :: data)) as [| f rest'].
  - reflexivity.
  - cbn [head] in *. unfold lift. rewrite bind_value. cbn beta.
    rewrite (comprehension_map _ (metric_value f)); [reflexivity |].
    intros m Hm. apply float_get_value.
    specialize (Hfree f eq_refl). rewrite List.Forall_forall in Hfree.
    apply Hfree. apply list_elem_of_In. exact Hm.
Qed.

(** An [alloc] row without [p95_ns] and a [free] row: the missing bar is
    zero. *)
Lemma latency_comparison_bars_witness :
  let a : Record := {[ "op" := "alloc"; "p50_ns" := "30"; "p99_ns" := "374";
                       "p999_ns" := "1137" ]} in
  let f : Record := {[ "op" := "free"; "p50_ns" := "20"; "p95_ns" := "41";
                       "p99_ns" := "90"; "p999_ns" := "800" ]} in
  plot_latency_comparison [f; a] "out" =
    ([ Savefig "out/latency_percentiles.png"
         (LatencyPercentilesFig [30; 0; 374; 1137]%float [20; 41; 90; 800]%float);
       Stdout "Generated: out/latency_percentiles.png" ], inr tt).
Proof.
  intros a f.
  refine (eq_trans (latency_comparison_bars [f; a] "out" a _ _ _) _).
  - reflexivity.
  - metrics_ok.
  - intros free_row Hf.
    replace (head (List.filter (op_is "free") [f; a])) with (Some f) in Hf
      by by_decision.
    injection Hf as <-. metrics_ok.
  - vm_compute. reflexivity.
Defined.

(** X2. A non-empty latency Group without any [alloc] Record gives no
    latency chart and no exception, whatever its Records hold: the
    comparison renderer prints one notice, the CDF renderer returns
    silently. *)
Theorem no_alloc_record_no_latency_chart (data : list Record) (output : string) :
  data <> [] ->
  (forall row, row ∈ data -> row !! "op" <> Some "alloc") ->
  plot_latency_comparison data output = ([Stderr "No allocation latency data"], inr tt) /\
  plot_latency_cdf data output = ([], inr tt).
Proof.
  intros Hne Hno.
  assert (Hf : List.filter (op_is "alloc") data = []).
  { destruct (List.filter (op_is "alloc") data) as [| row rows] eqn:Hf; [reflexivity |].
    assert (Hin : row ∈ List.filter (op_is "alloc") data)
      by (rewrite Hf; apply list_elem_of_here).
    apply elem_of_filter_bool in Hin as [Hin Hop]. apply op_is_true in Hop.
    destruct (Hno row Hin Hop). }
  unfold plot_latency_comparison, plot_latency_cdf. rewrite Hf.
  destruct data as [| row data]; [congruence |]. split; reflexivity.
Qed.

Lemma no_alloc_record_no_latency_chart_witness :
  let f : Record := {[ "op" := "free"; "p50_ns" := "not a number" ]} in
  plot_latency_comparison [f] "out" = ([Stderr "No allocation latency data"], inr tt) /\
  plot_latency_cdf [f] "out" = ([], inr tt).
Proof.
  intros f. apply no_alloc_record_no_latency_chart.
  - discriminate.
  - intros row Hin. apply list_elem_of_singleton in Hin as ->. vm_compute. discriminate.
Defined.

(** X3. The two latency charts agree: whenever the comparison renderer writes
    its chart, the CDF renderer writes one whose four points are the
    [alloc] bars of the comparison chart. *)
Theorem latency_cdf_matches_comparison (data : list Record) (output : string)
    (path : string) (alloc_vals free_vals : list float) (rest : list event) :
  plot_latency_comparison data output =
    (Savefig path (LatencyPercentilesFig alloc_vals free_vals) :: rest, inr tt) ->
  plot_latency_cdf data output =
    ([ Savefig (path_join output "latency_cdf.png") (LatencyCdfFig alloc_vals);
       Stdout ("Generated: " +:+ path_join output "latency_cdf.png") ], inr tt).
Proof.
  unfold plot_latency_comparison, plot_latency_cdf.
  destruct data as [| row data]; [discriminate |].
  destruct (List.filter (op_is "alloc") (row :: data)) as [| a la]; [discriminate |].
  fold metrics.
  destruct (comprehension (float_get a) metrics) as [e | vals]; [discriminate |].
  unfold lift. rewrite !bind_value. cbn beta.
  destruct (comprehension _ metrics) as [e | fvals]; [discriminate |].
  intros [= _ <- _ _]. reflexivity.
Qed.

Lemma latency_cdf_matches_comparison_witness :
  let a : Record := {[ "op" := "alloc"; "p50_ns" := "30"; "p95_ns" := "55";
                       "p99_ns" := "374"; "p999_ns" := "1137" ]} in
  plot_latency_cdf [a] "out" =
    ([ Savefig "out/latency_cdf.png" (LatencyCdfFig [30; 55; 374; 1137]%float);
       Stdout "Generated: out/latency_cdf.png" ], inr tt).
Proof.
  intros a.
  apply (latency_cdf_matches_comparison [a] "out" "out/latency_percentiles.png"
           [30; 55; 374; 1137]%float [0; 0; 0; 0]%float
           [Stdout "Generated: out/latency_percentiles.png"]).
  vm_compute. reflexivity.
Defined.

(** ** The fragmentation chart *)

Lemma group_rows_app data1 data2 : forall m,
  group_rows m (data1 ++ data2) =
  match group_rows m data1 with
  | inl e => inl e
  | inr m' => group_rows m' data2
  end.
Proof.
  induction data1 as [| row data1 IH]; intros m; [reflexivity |].
  cbn [app group_rows]. destruct (group_row m row) as [e | m']; [reflexivity | apply IH].
Qed.

Lemma group_rows_skip data : forall m,
  group_rows m (List.filter (has "size_class") data) = group_rows m data.
Proof.
  induction data as [| row data IH]; intros m; [reflexivity |].
  cbn [List.filter group_rows]. destruct (has "size_class" row) eqn:Hh.
  - cbn [group_rows]. destruct (group_row m row) as [e | m']; [reflexivity | apply IH].
  - assert (Hs : row !! "size_class" = None).
    { destruct (row !! "size_class") eqn:E; [| reflexivity].
      assert (has "size_class" row = true) by (apply has_true; rewrite E; eauto).
      congruence. }
    rewrite (group_row_skip m row Hs). apply IH.
Qed.

Lemma sorted_keys_empty : sorted_keys ∅ = [].
Proof. unfold sorted_keys. rewrite map_to_list_empty. reflexivity. Qed.

Section Fragmentation.

Variable np_mean : list float -> float.

(** X4. The grouping loop skips a Record without [size_class]: the chart of
    a non-empty Group is the chart of its Records that have one.  When none
    has, the renderer does not skip: it writes a chart without bars. *)
Theorem records_without_size_class_are_skipped (data : list Record) (output : string) :
  data <> [] ->
  plot_fragmentation np_mean data output =
    match List.filter (has "size_class") data with
    | [] =>
        ([ Savefig (path_join output "fragmentation.png") (FragmentationFig [] [] []);
           Stdout ("Generated: " +:+ path_join output "fragmentation.png") ], inr tt)
    | kept => plot_fragmentation np_mean kept output
    end.
Proof.
  intros Hne. destruct data as [| row data]; [congruence |].
  destruct (List.filter (has "size_class") (row :: data)) as [| k kept] eqn:Hk.
  - unfold plot_fragmentation. rewrite <- group_rows_skip, Hk. cbn [group_rows].
    unfold lift. rewrite bind_value. cbn beta. rewrite sorted_keys_empty. reflexivity.
  - unfold plot_fragmentation. rewrite <- (group_rows_skip (row :: data)), Hk.
    reflexivity.
Qed.

(** X5. [requested] is read and parsed for every Record that has a size
    class, although no chart shows it: after well-formed Records, a Record
    with a size class and no [requested] field makes the renderer raise
    [KeyError] for that field before anything is written. *)
Theorem missing_requested_raises (before after : list Record) (row : Record)
    (output : string) :
  Forall frag_row_ok before ->
  is_Some (row !! "size_class" ≫= py_int) ->
  row !! "requested" = None ->
  plot_fragmentation np_mean (before ++ row :: after) output =
    ([], inl (KeyError "requested")).
Proof.
  intros Hok [sc Hsc] Hreq.
  destruct (group_rows_spec before Hok ∅) as (m & Hm & _).
  assert (Hrow : group_row m row = inl (KeyError "requested")).
  { unfold group_row, has. destruct (row !! "size_class") as [s |] eqn:Hs; [| discriminate].
    rewrite bool_decide_eq_true_2 by eauto. cbn [negb].
    unfold int_field at 1. unfold getitem. rewrite Hs. simpl in Hsc. rewrite Hsc.
    rewrite (int_field_missing row "requested" Hreq). reflexivity. }
  unfold plot_fragmentation.
  destruct (before ++ row :: after) as [| r l] eqn:Hd.
  { destruct before; discriminate. }
  rewrite <- Hd, group_rows_app, Hm. cbn [group_rows]. rewrite Hrow. reflexivity.
Qed.

End Fragmentation.

Lemma records_without_size_class_are_skipped_witness :
  let row : Record := {[ "efficiency_pct" := "91.5" ]} in
  plot_fragmentation np_mean_seq [row] "out" =
    ([ Savefig "out/fragmentation.png" (FragmentationFig [] [] []);
       Stdout "Generated: out/fragmentation.png" ], inr tt).
Proof.
  intros row.
  exact (records_without_size_class_are_skipped np_mean_seq [row] "out"
           ltac:(discriminate)).
Defined.

Lemma missing_requested_raises_witness :
  let ok : Record := {[ "size_class" := "64"; "requested" := "54"; "wasted" := "10";
                        "efficiency_pct" := "84.4" ]} in
  let bad : Record := {[ "size_class" := "128"; "wasted" := "8";
                         "efficiency_pct" := "93.7" ]} in
  plot_fragmentation np_mean_seq [ok; bad] "out" = ([], inl (KeyError "requested")).
Proof.
  intros ok bad.
  apply (missing_requested_raises np_mean_seq [ok] [] bad "out").
  - constructor; [| constructor]. intros _. vm_compute. repeat split; eexists; reflexivity.
  - vm_compute. eexists; reflexivity.
  - vm_compute. reflexivity.
Defined.

(** ** The RSS chart *)

Lemma int_field_inr_inv (row : Record) key z :
  int_field row key = inr z -> row !! key ≫= py_int = Some z.
Proof.
  unfold int_field, getitem. destruct (row !! key) as [v |]; [| discriminate].
  simpl. destruct (py_int v); [| discriminate]. intros [= ->]. reflexivity.
Qed.

Lemma float_field_inr_inv (row : Record) key x :
  float_field row key = inr x -> row !! key ≫= py_float = Some x.
Proof.
  unfold float_field, getitem. destruct (row !! key) as [v |]; [| discriminate].
  simpl. destruct (py_float v); [| discriminate]. intros [= ->]. reflexivity.
Qed.

Lemma comprehension_omap {A B} (f : A -> exn + B) (g : A -> option B) xs ys :
  (forall x y, f x = inr y -> g x = Some y) ->
  comprehension f xs = inr ys -> ys = omap g xs /\ length ys = length xs.
Proof.
  intros Hfg. revert ys. induction xs as [| x xs IH]; intros ys; cbn [comprehension].
  - intros [= <-]. split; reflexivity.
  - destruct (f x) as [e | y] eqn:Hfx; [discriminate |].
    destruct (comprehension f xs) as [e | ys']; [discriminate |].
    intros [= <-]. destruct (IH ys' eq_refl) as [-> Hlen].
    rewrite (omap_cons_Some g x xs y (Hfg x y Hfx)).
    split; [reflexivity | simpl; rewrite Hlen; reflexivity].
Qed.

(** X6. When the RSS renderer writes its chart, the four series it plots
    are the parsed [cycle], [rss_mib], [slabs_allocated] and
    [slabs_recycled] fields of all the Records of the Group, in arrival
    order (the chart does not sort by cycle), each as long as the Group; and
    the growth annotation is there, between the first and the last RSS
    value. *)
Theorem rss_chart_series (data : list Record) (output : string) (path : string)
    (cycles allocated recycled : list Z) (rss_values : list float)
    (growth : option (float * float * float)) (rest : list event) :
  plot_rss_over_time data output =
    (Savefig path (RssFig cycles rss_values growth allocated recycled) :: rest, inr tt) ->
  cycles = ints_of "cycle" data /\
  rss_values = floats_of "rss_mib" data /\
  allocated = ints_of "slabs_allocated" data /\
  recycled = ints_of "slabs_recycled" data /\
  (length cycles = length data /\ length rss_values = length data /\
   length allocated = length data /\ length recycled = length data) /\
  exists pct, growth = Some (default 0%float (head rss_values),
                             default 0%float (last rss_values), pct).
Proof.
  unfold plot_rss_over_time. destruct data as [| row data]; [discriminate |].
  set (d := row :: data).
  destruct (comprehension (fun r => int_field r "cycle") d) as [e | cs] eqn:Hc;
    [discriminate |].
  destruct (comprehension (fun r => float_field r "rss_mib") d) as [e | rs] eqn:Hr;
    [discriminate |].
  destruct (comprehension (fun r => int_field r "slabs_allocated") d) as [e | al] eqn:Ha;
    [discriminate |].
  destruct (comprehension (fun r => int_field r "slabs_recycled") d) as [e | rc] eqn:Hrc;
    [discriminate |].
  unfold lift. rewrite !bind_value. cbn beta.
  apply (comprehension_omap _ (fun r : Record => r !! "cycle" ≫= py_int)) in Hc
    as [Hc Hcl]; [| intros; apply int_field_inr_inv; assumption].
  apply (comprehension_omap _ (fun r : Record => r !! "rss_mib" ≫= py_float)) in Hr
    as [Hr Hrl]; [| intros; apply float_field_inr_inv; assumption].
  apply (comprehension_omap _ (fun r : Record => r !! "slabs_allocated" ≫= py_int)) in Ha
    as [Ha Hal]; [| intros; apply int_field_inr_inv; assumption].
  apply (comprehension_omap _ (fun r : Record => r !! "slabs_recycled" ≫= py_int)) in Hrc
    as [Hrc Hrcl]; [| intros; apply int_field_inr_inv; assumption].
  destruct rs as [| x xs]; [discriminate Hrl |].
  destruct (growth_of_nonempty (x :: xs) ltac:(discriminate))
    as (initial & final & Hi & Hf & Hg).
  rewrite Hg. destruct (initial =? 0)%float; [discriminate |].
  unfold lift. rewrite !bind_value. cbn.
  intros [= _ <- <- <- <- <- _].
  repeat split; try assumption.
  eexists. rewrite Hi, Hf. reflexivity.
Qed.

Lemma rss_chart_series_witness :
  let row (cycle rss_mib : string) : Record :=
    {[ "cycle" := cycle; "rss_mib" := rss_mib;
       "slabs_allocated" := "8"; "slabs_recycled" := "5" ]} in
  let data := [row "7" "100.0"; row "3" "102.4"] in
  [7; 3] = ints_of "cycle" data /\ [100.0; 102.4]%float = floats_of "rss_mib" data.
Proof.
  intros row data.
  destruct (rss_chart_series data "out" "out/rss_over_time.png" [7; 3] [8; 8] [5; 5]
              [100.0; 102.4]%float
              (Some (100.0, 102.4, 2.4000000000000057)%float)
              [Stdout "Generated: out/rss_over_time.png"])
    as (Hc & Hr & _).
  - vm_compute. reflexivity.
  - split; [exact Hc | exact Hr].
Defined.

(** X7. When the first [rss_mib] of a well-formed RSS Group is zero, the
    growth cannot be derived: the renderer raises [ZeroDivisionError] and
    writes nothing. *)
Theorem zero_initial_rss_raises (data : list Record) (output : string) (row : Record)
    (initial : float) :
  head data = Some row ->
  row !! "rss_mib" ≫= py_float = Some initial ->
  (initial =? 0)%float = true ->
  Forall rss_row_full data ->
  plot_rss_over_time data output = ([], inl ZeroDivisionError).
Proof.
  intros Hhead Hinit Hzero Hok. rewrite List.Forall_forall in Hok.
  assert (Hok' : forall r, r ∈ data -> rss_row_full r).
  { intros r Hr. apply Hok. apply list_elem_of_In. exact Hr. }
  unfold plot_rss_over_time. destruct data as [| r0 data0] eqn:Hd; [discriminate |].
  rewrite <- Hd in *.
  destruct (comprehension_total (fun r => int_field r "cycle") data) as (cs & -> & _).
  { intros r Hr. apply int_field_inr. apply (Hok' r Hr). }
  destruct (comprehension_total (fun r => float_field r "rss_mib") data)
    as (rs & Hrs & Hlen).
  { intros r Hr. apply float_field_inr. apply (Hok' r Hr). }
  rewrite Hrs.
  destruct (comprehension_total (fun r => int_field r "slabs_allocated") data)
    as (al & -> & _).
  { intros r Hr. apply int_field_inr. apply (Hok' r Hr). }
  destruct (comprehension_total (fun r => int_field r "slabs_recycled") data)
    as (rc & -> & _).
  { intros r Hr. apply int_field_inr. apply (Hok' r Hr). }
  apply (comprehension_omap _ (fun r : Record => r !! "rss_mib" ≫= py_float)) in Hrs
    as [Hrs _]; [| intros; apply float_field_inr_inv; assumption].
  rewrite Hd in Hhead. injection Hhead as ->.
  rewrite Hd in Hrs.
  rewrite (omap_cons_Some (fun r : Record => r !! "rss_mib" ≫= py_float)
             row data0 initial Hinit) in Hrs.
  subst rs. unfold lift. rewrite !bind_value. cbn beta.
  unfold growth_of. cbn [lookup list_lookup]. rewrite last_lookup'.
  destruct (last (initial :: _)) as [final |] eqn:Hlast.
  - rewrite Hzero. reflexivity.
  - apply last_None in Hlast. discriminate.
Qed.

Lemma zero_initial_rss_raises_witness :
  let row (rss_mib : string) : Record :=
    {[ "cycle" := "0"; "rss_mib" := rss_mib;
       "slabs_allocated" := "8"; "slabs_recycled" := "5" ]} in
  plot_rss_over_time [row "0.0"; row "12.5"] "out" = ([], inl ZeroDivisionError).
Proof.
  intros row.
  apply (zero_initial_rss_raises [row "0.0"; row "12.5"] "out" (row "0.0") 0%float).
  - reflexivity.
  - vm_compute. reflexivity.
  - vm_compute. reflexivity.
  - repeat (apply List.Forall_cons; [parses |]). apply List.Forall_nil.
Defined.

(** ** The summary card *)

Lemma comprehension_present (key : string) (data : list Record) :
  (forall row v, row ∈ data -> row !! key = Some v -> is_Some (py_float v)) ->
  comprehension (fun row => float_field row key) (List.filter (has key) data) =
    inr (floats_of key data).
Proof.
  unfold floats_of. induction data as [| row data IH]; intros Hok; [reflexivity |].
  assert (IH' := IH (fun r v Hr => Hok r v (list_elem_of_further _ _ _ Hr))).
  cbn [List.filter]. destruct (row !! key) as [v |] eqn:Hv.
  - destruct (Hok row v (list_elem_of_here _ _) Hv) as [x Hx].
    rewrite (proj2 (has_true key row)) by (rewrite Hv; eauto).
    cbn [comprehension]. unfold float_field at 1, getitem. rewrite Hv, Hx, IH'.
    rewrite (omap_cons_Some (fun r : Record => r !! key ≫= py_float) row data x);
      [reflexivity | rewrite Hv; exact Hx].
  - assert (Hh : has key row = false).
    { apply not_true_is_false. intros Hc. apply has_true in Hc as [? ?]. congruence. }
    rewrite Hh, IH'. cbn [omap list_omap]. rewrite Hv. reflexivity.
Qed.

Section SummaryCard.

Variable np_mean : list float -> float.

(** X8. The summary card of well-formed input.  Its three latencies are the
    [p50_ns], [p99_ns] and [p999_ns] fields of the first [alloc] Record (zero
    for a missing field, and all zero without an [alloc] Record); its
    efficiency is the mean over every fragmentation Record that has
    [efficiency_pct], one value per Record whatever its size class, and zero
    when there is none. *)
Theorem summary_card_values (latency_data frag_data : list Record) (output : string) :
  let alloc_row := default ∅ (head (List.filter (op_is "alloc") latency_data)) in
  metric_ok alloc_row "p50_ns" ->
  metric_ok alloc_row "p99_ns" ->
  metric_ok alloc_row "p999_ns" ->
  (forall row v, row ∈ frag_data -> row !! "efficiency_pct" = Some v ->
                 is_Some (py_float v)) ->
  plot_summary_card np_mean latency_data frag_data output =
    ([ Savefig (path_join output "summary.png")
         (SummaryFig (metric_value alloc_row "p50_ns")
                     (metric_value alloc_row "p99_ns")
                     (metric_value alloc_row "p999_ns")
                     (match floats_of "efficiency_pct" frag_data with
                      | [] => 0%float
                      | efficiencies => np_mean efficiencies
                      end));
       Stdout ("Generated: " +:+ path_join output "summary.png") ], inr tt).
Proof.
  intros alloc_row H50 H99 H999 Hfrag. unfold plot_summary_card.
  fold alloc_row.
  rewrite (float_get_value _ _ H50), (float_get_value _ _ H99),
    (float_get_value _ _ H999).
  unfold lift. rewrite !bind_value. cbn beta.
  destruct frag_data as [| row frag_data]; [reflexivity |].
  rewrite (comprehension_present "efficiency_pct" (row :: frag_data) Hfrag).
  rewrite !bind_value. cbn beta.
  destruct (floats_of "efficiency_pct" (row :: frag_data)); reflexivity.
Qed.

End SummaryCard.

(** Two size classes, three Records: the card shows the mean of the three
    efficiencies; [p95_ns] and the [free] row are not read. *)
Lemma summary_card_values_witness :
  let a : Record := {[ "op" := "alloc"; "p50_ns" := "30"; "p95_ns" := "oops";
                       "p999_ns" := "1137" ]} in
  let f : Record := {[ "op" := "free"; "p50_ns" := "oops" ]} in
  let frag (size_class efficiency_pct : string) : Record :=
    {[ "size_class" := size_class; "efficiency_pct" := efficiency_pct ]} in
  plot_summary_card np_mean_seq [f; a] [frag "64" "80"; frag "64" "90"; frag "128" "100"]
    "out" =
    ([ Savefig "out/summary.png" (SummaryFig 30 0 1137 90);
       Stdout "Generated: out/summary.png" ], inr tt).
Proof.
  intros a f frag.
  refine (eq_trans (summary_card_values np_mean_seq [f; a]
                      [frag "64" "80"; frag "64" "90"; frag "128" "100"] "out"
                      _ _ _ _) _).
  - intros v Hv. vm_compute in Hv. injection Hv as <-. vm_compute. eexists; reflexivity.
  - intros v Hv. vm_compute in Hv. discriminate.
  - intros v Hv. vm_compute in Hv. injection Hv as <-. vm_compute. eexists; reflexivity.
  - intros row v Hin Hv.
    repeat (apply elem_of_cons in Hin as [-> | Hin]);
      [| | | apply elem_of_nil in Hin; contradiction];
      vm_compute in Hv; injection Hv as <-; vm_compute; eexists; reflexivity.
  - vm_compute. reflexivity.
Defined.

(** ** What a run of [main] leaves behind *)

Lemma renders_nothing path notices : renders path notices (ret tt).
Proof. left. reflexivity. Qed.

Lemma renders_notice path notices n :
  n ∈ notices -> renders path notices (emit (Stderr n)).
Proof. intros Hn. right. left. exists n. split; [exact Hn | reflexivity]. Qed.

Lemma renders_chart path notices fig :
  renders path notices
    (emit (Savefig path fig) >> emit (Stdout ("Generated: " +:+ path))).
Proof. right. right. exists fig. reflexivity. Qed.

Lemma renders_bind_lift {A} path notices (r : exn + A) (k : A -> io unit) :
  (forall a, renders path notices (k a)) -> renders path notices (bind (lift r) k).
Proof.
  intros Hk. destruct r as [e | a]; [left; reflexivity |].
  unfold lift. rewrite bind_value. specialize (Hk a).
  unfold renders, events in *. simpl. exact Hk.
Qed.

Lemma renders_bind_ret {A} path notices (a : A) (k : A -> io unit) :
  renders path notices (k a) -> renders path notices (bind (ret a) k).
Proof. rewrite bind_ret_l. trivial. Qed.

Ltac renders_steps :=
  repeat first
    [ apply renders_bind_lift; intros ?
    | apply renders_chart
    | apply renders_nothing ].

Section Traces.

Variable np_mean : list float -> float.

Lemma renders_plot_latency_comparison data out :
  data <> [] ->
  renders (path_join out "latency_percentiles.png") ["No allocation latency data"]
    (plot_latency_comparison data out).
Proof.
  intros Hne. destruct data as [| row data]; [congruence |].
  unfold plot_latency_comparison.
  destruct (List.filter (op_is "alloc") (row :: data)) as [| a rest].
  - apply renders_notice. apply list_elem_of_here.
  - renders_steps.
Qed.

Lemma renders_plot_latency_cdf data out :
  renders (path_join out "latency_cdf.png") [] (plot_latency_cdf data out).
Proof.
  unfold plot_latency_cdf.
  destruct (List.filter (op_is "alloc") data) as [| a rest]; renders_steps.
Qed.

Lemma renders_plot_fragmentation data out :
  data <> [] ->
  renders (path_join out "fragmentation.png") [] (plot_fragmentation np_mean data out).
Proof.
  intros Hne. destruct data as [| row data]; [congruence |].
  unfold plot_fragmentation. renders_steps.
Qed.

Lemma renders_plot_rss_over_time data out :
  data <> [] ->
  renders (path_join out "rss_over_time.png") [] (plot_rss_over_time data out).
Proof.
  intros Hne. destruct data as [| row data]; [congruence |].
  unfold plot_rss_over_time.
  apply renders_bind_lift; intros cycles.
  apply renders_bind_lift; intros rss_values.
  apply renders_bind_lift; intros allocated.
  apply renders_bind_lift; intros recycled.
  destruct rss_values as [| x xs].
  - apply renders_bind_ret. renders_steps.
  - rewrite bind_assoc. apply renders_bind_lift. intros g.
    apply renders_bind_ret. renders_steps.
Qed.

Lemma renders_plot_summary_card latency_data frag_data out :
  renders (path_join out "summary.png") []
    (plot_summary_card np_mean latency_data frag_data out).
Proof.
  unfold plot_summary_card.
  apply renders_bind_lift; intros p50.
  apply renders_bind_lift; intros p99.
  apply renders_bind_lift; intros p999.
  destruct frag_data as [| row frag_data].
  - apply renders_bind_ret. renders_steps.
  - rewrite bind_assoc. apply renders_bind_lift. intros effs.
    apply renders_bind_ret. renders_steps.
Qed.

Lemma renders_when path notices {A} (data : list A) (m : io unit) :
  (data <> [] -> renders path notices m) ->
  renders path notices (when (nonempty data) m).
Proof.
  intros H. destruct data as [| row data]; [apply renders_nothing |].
  apply H. discriminate.
Qed.

Lemma renders_render_steps latency_data frag_data rss_data out :
  Forall2 (fun pn step => renders pn.1 pn.2 step)
    (zip (chart_paths out) step_notices)
    (render_steps np_mean latency_data frag_data rss_data out).
Proof.
  unfold render_steps, chart_paths, step_notices. cbn [fmap list_fmap zip zip_with].
  constructor.
  { apply renders_when. apply renders_plot_latency_comparison. }
  constructor.
  { apply renders_when. intros _. apply renders_plot_latency_cdf. }
  constructor.
  { apply renders_when. apply renders_plot_fragmentation. }
  constructor.
  { apply renders_when. apply renders_plot_rss_over_time. }
  constructor; [| constructor].
  destruct (nonempty latency_data || nonempty frag_data);
    [apply renders_plot_summary_card | apply renders_nothing].
Qed.

(** The events of a run that loaded something: the header, the events of
    the renderers up to the first that raised, and the footer if none did. *)
Lemma main_events fs input output csv_files :
  loaded fs input csv_files <> [] ->
  exists ran rest tail,
    steps_of np_mean fs input output csv_files = ran ++ rest /\
    (tail = [] \/ tail = footer output) /\
    events (main np_mean fs input output csv_files) =
      header fs input csv_files ++ concat (map events ran) ++ tail.
Proof.
  intros Hrows.
  destruct (run_all_cases (steps_of np_mean fs input output csv_files))
    as [Hall | (pre & s & post & e & Hsteps & Hpre & Hs)].
  - exists (steps_of np_mean fs input output csv_files), [], (footer output).
    split; [rewrite app_nil_r; reflexivity |]. split; [right; reflexivity |].
    rewrite (main_all_return _ _ _ _ _ Hrows Hall). reflexivity.
  - exists pre, (s :: post), []. split; [exact Hsteps |]. split; [left; reflexivity |].
    rewrite (main_first_raise _ _ _ _ _ _ _ _ _ Hrows Hsteps Hpre Hs).
    pose proof (tidy_render_steps np_mean
                  (latency_of (loaded fs input csv_files))
                  (frag_of (loaded fs input csv_files))
                  (rss_of (loaded fs input csv_files)) output) as Htidy.
    fold (steps_of np_mean fs input output csv_files) in Htidy.
    rewrite Hsteps in Htidy. apply Forall_app in Htidy as [_ Htidy].
    apply Forall_cons_1 in Htidy as [Htidy _].
    destruct s as [t r]. unfold outcome in Hs; simpl in Hs; subst r.
    destruct Htidy as [-> _]. unfold events; simpl. reflexivity.
Qed.

End Traces.

Lemma renders_artifacts path notices (m : io unit) :
  renders path notices m -> artifacts m = [] \/ artifacts m = [path].
Proof.
  unfold artifacts. intros [-> | [(n & _ & ->) | (fig & ->)]];
    [left | left | right]; reflexivity.
Qed.

Lemma renders_diagnostics path notices (m : io unit) :
  renders path notices m ->
  diagnostics m = [] \/ exists n, n ∈ notices /\ diagnostics m = [n].
Proof.
  unfold diagnostics. intros [-> | [(n & Hn & ->) | (fig & ->)]].
  - left; reflexivity.
  - right. exists n. split; [exact Hn | reflexivity].
  - left; reflexivity.
Qed.

Lemma ran_artifacts pns (steps : list (io unit)) :
  Forall2 (fun pn step => renders pn.1 pn.2 step) pns steps ->
  forall ran rest, steps = ran ++ rest ->
  sublist (concat (map artifacts ran)) pns.*1.
Proof.
  induction 1 as [| pn step pns steps Hstep _ IH]; intros ran rest Heq.
  - destruct ran; [apply sublist_nil_l | discriminate].
  - destruct ran as [| s ran]; [apply sublist_nil_l |].
    injection Heq as <- Heq. cbn [map concat fmap list_fmap].
    destruct (renders_artifacts _ _ _ Hstep) as [-> | ->].
    + apply sublist_cons. eapply IH. exact Heq.
    + apply sublist_skip. eapply IH. exact Heq.
Qed.

Lemma ran_diagnostics pns (steps : list (io unit)) :
  Forall2 (fun pn step => renders pn.1 pn.2 step) pns steps ->
  Forall (fun pn => (length pn.2 <= 1)%nat) pns ->
  forall ran rest, steps = ran ++ rest ->
  sublist (concat (map diagnostics ran)) (concat pns.*2).
Proof.
  induction 1 as [| pn step pns steps Hstep _ IH]; intros Hone ran rest Heq.
  - destruct ran; [apply sublist_nil_l | discriminate].
  - destruct ran as [| s ran]; [apply sublist_nil_l |].
    injection Heq as <- Heq. apply Forall_cons_1 in Hone as [Hpn Hone].
    cbn [map concat fmap list_fmap].
    apply sublist_app; [| eapply IH; eassumption].
    destruct (renders_diagnostics _ _ _ Hstep) as [-> | (n & Hn & ->)];
      [apply sublist_nil_l |].
    destruct (pn.2) as [| n0 [| n1 ns]]; simpl in Hpn; [| | lia].
    + apply elem_of_nil in Hn. contradiction.
    + apply list_elem_of_singleton in Hn as ->. reflexivity.
Qed.

Lemma omap_concat_map {A B} (f : A -> option B) (g : io unit -> list A)
    (steps : list (io unit)) :
  omap f (concat (map g steps)) = concat (map (fun s => omap f (g s)) steps).
Proof.
  induction steps as [| s steps IH]; [reflexivity |].
  cbn [map concat]. rewrite omap_app, IH. reflexivity.
Qed.

Lemma omap_stdout {A B} (sel : event -> option B) (f : A -> string) (l : list A) :
  (forall line, sel (Stdout line) = None) ->
  omap sel (map (fun x => Stdout (f x)) l) = [].
Proof.
  intros Hsel. induction l as [| x l IH]; [reflexivity |].
  cbn [map omap list_omap]. rewrite Hsel. exact IH.
Qed.

Section Traces2.

Variable np_mean : list float -> float.

(** A run that loaded nothing ends in one of the two fatal exits. *)
Lemma main_without_rows fs input output csv_files :
  loaded fs input csv_files = [] ->
  artifacts (main np_mean fs input output csv_files) = [] /\
  (diagnostics (main np_mean fs input output csv_files) =
     ["No CSV files found in " +:+ input; "Run benchmarks first with --csv flag"] \/
   diagnostics (main np_mean fs input output csv_files) = ["No data loaded"]).
Proof.
  intros Hrows. destruct csv_files as [| f rest].
  - rewrite main_no_files. split; [reflexivity | left; reflexivity].
  - rewrite main_no_rows by (congruence || exact Hrows).
    unfold artifacts, diagnostics, events. cbn [fst omap list_omap].
    rewrite !omap_app, !omap_stdout by reflexivity.
    split; [reflexivity | right; reflexivity].
Qed.

(** X9. Whatever the input and however the run ends, [main] writes no file
    other than its five charts, never one of them twice, and always in the
    order latency percentiles, latency CDF, fragmentation, RSS over time,
    summary. *)
Theorem main_writes_only_its_charts (fs : files) (input output : string)
    (csv_files : list string) :
  sublist (artifacts (main np_mean fs input output csv_files)) (chart_paths output).
Proof.
  destruct (loaded fs input csv_files) as [| row rows] eqn:Hl.
  - rewrite (proj1 (main_without_rows fs input output csv_files Hl)).
    apply sublist_nil_l.
  - assert (Hrows : loaded fs input csv_files <> []) by (rewrite Hl; discriminate).
    destruct (main_events np_mean fs input output csv_files Hrows)
      as (ran & rest & tail & Hsteps & Htail & Hev).
    unfold artifacts. rewrite Hev, !omap_app.
    assert (Hh : omap (fun ev => match ev with Savefig p _ => Some p | _ => None end)
                   (header fs input csv_files) = []).
    { unfold header. cbn [omap list_omap]. rewrite omap_app, omap_stdout by reflexivity.
      reflexivity. }
    assert (Ht : omap (fun ev => match ev with Savefig p _ => Some p | _ => None end)
                   tail = []).
    { destruct Htail as [-> | ->]; reflexivity. }
    rewrite Hh, Ht, app_nil_r. cbn [app].
    rewrite omap_concat_map.
    change (sublist (concat (map artifacts ran)) (chart_paths output)).
    change (chart_paths output) with (zip (chart_paths output) step_notices).*1.
    eapply ran_artifacts; [| exact Hsteps].
    apply renders_render_steps.
Qed.

(** X10. What the program itself prints on the error stream during a run
    of [main] (the traceback the interpreter adds when an exception escapes
    is not part of it) is one of four: the two lines
    of the no-input exit, the line of the no-data exit, nothing, or the
    single notice that no [alloc] latency Record was found.  The skip
    notices of the renderers for an empty Group are never printed by [main],
    which does not call a renderer on an empty Group. *)
Theorem main_diagnostics (fs : files) (input output : string) (csv_files : list string) :
  let printed := diagnostics (main np_mean fs input output csv_files) in
  printed = ["No CSV files found in " +:+ input; "Run benchmarks first with --csv flag"] \/
  printed = ["No data loaded"] \/
  printed = [] \/
  printed = ["No allocation latency data"].
Proof.
  intros printed. subst printed.
  destruct (loaded fs input csv_files) as [| row rows] eqn:Hl.
  - destruct (proj2 (main_without_rows fs input output csv_files Hl)) as [-> | ->];
      [left | right; left]; reflexivity.
  - right. right.
    assert (Hrows : loaded fs input csv_files <> []) by (rewrite Hl; discriminate).
    destruct (main_events np_mean fs input output csv_files Hrows)
      as (ran & rest & tail & Hsteps & Htail & Hev).
    unfold diagnostics. rewrite Hev, !omap_app.
    assert (Hh : omap (fun ev => match ev with Stderr l => Some l | _ => None end)
                   (header fs input csv_files) = []).
    { unfold header. cbn [omap list_omap]. rewrite omap_app, omap_stdout by reflexivity.
      reflexivity. }
    assert (Ht : omap (fun ev => match ev with Stderr l => Some l | _ => None end)
                   tail = []).
    { destruct Htail as [-> | ->]; reflexivity. }
    rewrite Hh, Ht, app_nil_r. cbn [app].
    rewrite omap_concat_map.
    change (concat (map diagnostics ran) = [] \/
            concat (map diagnostics ran) = ["No allocation latency data"]).
    assert (Hsub : sublist (concat (map diagnostics ran))
                     (concat (zip (chart_paths output) step_notices).*2)).
    { eapply ran_diagnostics; [apply renders_render_steps | | exact Hsteps].
      unfold chart_paths, step_notices. cbn [fmap list_fmap zip zip_with].
      repeat (constructor; [simpl; lia |]). constructor. }
    change (concat (zip (chart_paths output) step_notices).*2)
      with ["No allocation latency data"] in Hsub.
    destruct (concat (map diagnostics ran)) as [| n l]; [left; reflexivity |].
    right. apply sublist_cons_l in Hsub as (k1 & k2 & Hk & Hsub).
    destruct k1 as [| ? [| ? ?]]; try discriminate.
    injection Hk as -> <-. apply sublist_nil_r in Hsub as ->. reflexivity.
Qed.

End Traces2.

(** ** A run over well-formed input *)

Lemma metric_ok_empty m : metric_ok ∅ m.
Proof. intros v Hv. rewrite lookup_empty in Hv. discriminate. Qed.

Lemma Forall_metrics (row : Record) m :
  Forall (metric_ok row) metrics -> m ∈ metrics -> metric_ok row m.
Proof.
  intros Hok Hm. rewrite List.Forall_forall in Hok. apply Hok.
  apply list_elem_of_In. exact Hm.
Qed.

Lemma rss_first_value (data : list Record) (row : Record) rest rss_values :
  data = row :: rest ->
  comprehension (fun r => float_field r "rss_mib") data = inr rss_values ->
  exists x xs, rss_values = x :: xs /\ row !! "rss_mib" ≫= py_float = Some x.
Proof.
  intros -> H. cbn [comprehension] in H.
  destruct (float_field row "rss_mib") as [e | x] eqn:Hx; [discriminate |].
  destruct (comprehension _ rest) as [e | xs]; [discriminate |].
  injection H as <-. exists x, xs. split; [reflexivity |].
  apply float_field_inr_inv. exact Hx.
Qed.

Section WellFormed.

Variable np_mean : list float -> float.

Lemma comparison_ok latency_data out :
  (forall row, head (List.filter (op_is "alloc") latency_data) = Some row ->
               Forall (metric_ok row) metrics) ->
  (forall row, head (List.filter (op_is "free") latency_data) = Some row ->
               Forall (metric_ok row) metrics) ->
  step_ok (path_join out "latency_percentiles.png")
    (nonempty (List.filter (op_is "alloc") latency_data))
    (when (nonempty latency_data) (plot_latency_comparison latency_data out)).
Proof.
  intros Ha Hf. destruct latency_data as [| row data]; [split; reflexivity |].
  cbn [nonempty when]. unfold plot_latency_comparison.
  destruct (List.filter (op_is "alloc") (row :: data)) as [| a rest];
    [split; reflexivity |].
  rewrite (comprehension_metrics a metrics (Ha a eq_refl)).
  unfold lift. rewrite bind_value. cbn beta.
  destruct (List.filter (op_is "free") (row :: data)) as [| f rest'].
  - split; reflexivity.
  - rewrite (comprehension_map _ (metric_value f));
      [split; reflexivity |].
    intros m Hm. apply float_get_value. apply Forall_metrics; [| exact Hm].
    apply Hf. reflexivity.
Qed.

Lemma cdf_ok latency_data out :
  (forall row, head (List.filter (op_is "alloc") latency_data) = Some row ->
               Forall (metric_ok row) metrics) ->
  step_ok (path_join out "latency_cdf.png")
    (nonempty (List.filter (op_is "alloc") latency_data))
    (when (nonempty latency_data) (plot_latency_cdf latency_data out)).
Proof.
  intros Ha. destruct latency_data as [| row data]; [split; reflexivity |].
  cbn [nonempty when]. unfold plot_latency_cdf.
  destruct (List.filter (op_is "alloc") (row :: data)) as [| a rest];
    [split; reflexivity |].
  fold metrics. rewrite (comprehension_metrics a metrics (Ha a eq_refl)).
  split; reflexivity.
Qed.

Lemma fragmentation_ok frag_data out :
  Forall frag_row_ok frag_data ->
  step_ok (path_join out "fragmentation.png") (nonempty frag_data)
    (when (nonempty frag_data) (plot_fragmentation np_mean frag_data out)).
Proof.
  intros Hok. destruct frag_data as [| row data]; [split; reflexivity |].
  cbn [nonempty when].
  destruct (plot_fragmentation_chart np_mean (row :: data) out ltac:(discriminate) Hok)
    as (classes & -> & _).
  split; reflexivity.
Qed.

Lemma rss_ok rss_data out :
  Forall rss_row_full rss_data ->
  (forall row x, head rss_data = Some row ->
                 row !! "rss_mib" ≫= py_float = Some x -> (x =? 0)%float = false) ->
  step_ok (path_join out "rss_over_time.png") (nonempty rss_data)
    (when (nonempty rss_data) (plot_rss_over_time rss_data out)).
Proof.
  intros Hok Hnz. destruct rss_data as [| row data] eqn:Hd; [split; reflexivity |].
  cbn [nonempty when]. rewrite <- Hd in *.
  rewrite List.Forall_forall in Hok.
  assert (Hok' : forall r, r ∈ rss_data -> rss_row_full r).
  { intros r Hr. apply Hok. apply list_elem_of_In. exact Hr. }
  destruct (comprehension_total (fun r => int_field r "cycle") rss_data)
    as (cs & Hcs & _).
  { intros r Hr. apply int_field_inr. apply (Hok' r Hr). }
  destruct (comprehension_total (fun r => float_field r "rss_mib") rss_data)
    as (rs & Hrs & _).
  { intros r Hr. apply float_field_inr. apply (Hok' r Hr). }
  destruct (comprehension_total (fun r => int_field r "slabs_allocated") rss_data)
    as (al & Hal & _).
  { intros r Hr. apply int_field_inr. apply (Hok' r Hr). }
  destruct (comprehension_total (fun r => int_field r "slabs_recycled") rss_data)
    as (rc & Hrc & _).
  { intros r Hr. apply int_field_inr. apply (Hok' r Hr). }
  destruct (rss_first_value rss_data row data rs Hd Hrs) as (x & xs & -> & Hx).
  destruct (growth_of_nonempty (x :: xs) ltac:(discriminate))
    as (initial & final & Hi & _ & Hg).
  injection Hi as <-.
  rewrite (Hnz row x ltac:(rewrite Hd; reflexivity) Hx) in Hg.
  rewrite (plot_rss_over_time_chart rss_data out cs (x :: xs) al rc _
             ltac:(rewrite Hd; discriminate) Hcs Hrs Hal Hrc ltac:(discriminate) Hg).
  split; reflexivity.
Qed.

Lemma summary_ok latency_data frag_data out :
  (forall row, head (List.filter (op_is "alloc") latency_data) = Some row ->
               Forall (metric_ok row) metrics) ->
  (forall row v, row ∈ frag_data -> row !! "efficiency_pct" = Some v ->
                 is_Some (py_float v)) ->
  step_ok (path_join out "summary.png") (nonempty latency_data || nonempty frag_data)
    (when (nonempty latency_data || nonempty frag_data)
       (plot_summary_card np_mean latency_data frag_data out)).
Proof.
  intros Ha Hf.
  destruct (nonempty latency_data || nonempty frag_data); [| split; reflexivity].
  cbn [when]. unfold plot_summary_card.
  assert (Hm : forall m, m ∈ metrics ->
                 metric_ok (default ∅ (head (List.filter (op_is "alloc") latency_data))) m).
  { intros m Hin. destruct (head (List.filter (op_is "alloc") latency_data)) as [a |] eqn:E.
    - apply Forall_metrics; [apply Ha; reflexivity | exact Hin].
    - apply metric_ok_empty. }
  rewrite (float_get_value _ "p50_ns"), (float_get_value _ "p99_ns"),
    (float_get_value _ "p999_ns");
    try (apply Hm; unfold metrics; set_solver).
  unfold lift. rewrite !bind_value. cbn beta.
  destruct frag_data as [| row frag_data]; [split; reflexivity |].
  rewrite (comprehension_present "efficiency_pct" (row :: frag_data) Hf).
  rewrite !bind_value. split; reflexivity.
Qed.

Lemma steps_ok_run (steps : list (io unit)) pbs :
  Forall2 (fun pb step => step_ok pb.1 pb.2 step) pbs steps ->
  Forall returns steps /\
  concat (map artifacts steps) =
    concat ((fun pb : string * bool => if pb.2 then [pb.1] else []) <$> pbs).
Proof.
  induction 1 as [| pb step pbs steps [Hout Hart] _ [IHr IHa]].
  - split; [constructor | reflexivity].
  - split; [constructor; [exists tt; exact Hout | exact IHr] |].
    cbn [map concat fmap list_fmap]. rewrite Hart, IHa. reflexivity.
Qed.

(** X11. On well-formed input that holds at least one Record, [main] runs
    every renderer to its end and exits with status 0.  It writes the two
    latency charts when the latency Group has an [alloc] Record, the
    fragmentation chart when that Group is not empty, the RSS chart when that
    Group is not empty, and the summary card when the latency or the
    fragmentation Group is not empty; nothing else, and in this order. *)
Theorem main_succeeds_on_well_formed_input (fs : files) (input output : string)
    (csv_files : list string) :
  loaded fs input csv_files <> [] ->
  well_formed (loaded fs input csv_files) ->
  exit_status (main np_mean fs input output csv_files) = 0 /\
  artifacts (main np_mean fs input output csv_files) =
    expected_charts output (loaded fs input csv_files).
Proof.
  intros Hrows (Ha & Hf & Hfrag & Heff & Hrss & Hnz).
  set (all_data := loaded fs input csv_files) in *.
  pose proof (comparison_ok (latency_of all_data) output Ha Hf) as H1.
  pose proof (cdf_ok (latency_of all_data) output Ha) as H2.
  pose proof (fragmentation_ok (frag_of all_data) output Hfrag) as H3.
  pose proof (rss_ok (rss_of all_data) output Hrss Hnz) as H4.
  pose proof (summary_ok (latency_of all_data) (frag_of all_data) output Ha Heff) as H5.
  destruct (steps_ok_run (steps_of np_mean fs input output csv_files)
              [ (path_join output "latency_percentiles.png",
                 nonempty (List.filter (op_is "alloc") (latency_of all_data)));
                (path_join output "latency_cdf.png",
                 nonempty (List.filter (op_is "alloc") (latency_of all_data)));
                (path_join output "fragmentation.png", nonempty (frag_of all_data));
                (path_join output "rss_over_time.png", nonempty (rss_of all_data));
                (path_join output "summary.png",
                 nonempty (latency_of all_data) || nonempty (frag_of all_data)) ])
    as [Hret Hart].
  { unfold steps_of, render_steps. fold all_data.
    constructor; [exact H1 |]. constructor; [exact H2 |]. constructor; [exact H3 |].
    constructor; [exact H4 |]. constructor; [exact H5 | constructor]. }
  rewrite (main_all_return np_mean fs input output csv_files Hrows Hret).
  split; [reflexivity |].
  unfold artifacts, events. cbn [fst].
  rewrite !omap_app, omap_concat_map.
  assert (Hh : omap (fun ev => match ev with Savefig p _ => Some p | _ => None end)
                 (header fs input csv_files) = []).
  { unfold header. cbn [omap list_omap]. rewrite omap_app, omap_stdout by reflexivity.
    reflexivity. }
  rewrite Hh. cbn [app footer omap list_omap]. rewrite app_nil_r.
  change (concat (map artifacts (steps_of np_mean fs input output csv_files)) =
          expected_charts output all_data).
  rewrite Hart. unfold expected_charts. cbn [fmap list_fmap concat fst snd].
  destruct (nonempty (List.filter (op_is "alloc") (latency_of all_data)));
    destruct (nonempty (frag_of all_data)); destruct (nonempty (rss_of all_data));
    destruct (nonempty (latency_of all_data)); reflexivity.
Qed.

End WellFormed.

(** One latency, one fragmentation and one RSS file, all well formed: the
    five charts. *)
Lemma main_succeeds_on_well_formed_input_witness :
  let lat (op p50 : string) : Record := {[ "op" := op; "p50_ns" := p50 ]} in
  let frag (wasted efficiency_pct : string) : Record :=
    {[ "size_class" := "64"; "requested" := "54"; "wasted" := wasted;
       "efficiency_pct" := efficiency_pct ]} in
  let rss (cycle rss_mib : string) : Record :=
    {[ "cycle" := cycle; "rss_mib" := rss_mib; "slabs_allocated" := "8";
       "slabs_recycled" := "5" ]} in
  let fs : files :=
    {[ "in/a.csv" := [lat "alloc" "30"; lat "free" "20"];
       "in/b.csv" := [frag "10" "90"; frag "20" "80"];
       "in/c.csv" := [rss "0" "100.0"; rss "1" "102.4"] ]} in
  exit_status (main np_mean_seq fs "in" "out" ["a.csv"; "b.csv"; "c.csv"]) = 0 /\
  artifacts (main np_mean_seq fs "in" "out" ["a.csv"; "b.csv"; "c.csv"]) =
    ["out/latency_percentiles.png"; "out/latency_cdf.png"; "out/fragmentation.png";
     "out/rss_over_time.png"; "out/summary.png"].
Proof.
  intros lat frag rss fs.
  set (all_data := loaded fs "in" ["a.csv"; "b.csv"; "c.csv"]).
  assert (Hlat : latency_of all_data = [lat "alloc" "30"; lat "free" "20"])
    by by_decision.
  assert (Hfrag : frag_of all_data = [frag "10" "90"; frag "20" "80"]) by by_decision.
  assert (Hrss : rss_of all_data = [rss "0" "100.0"; rss "1" "102.4"]) by by_decision.
  assert (Halloc : head (List.filter (op_is "alloc") [lat "alloc" "30"; lat "free" "20"])
                   = Some (lat "alloc" "30")) by by_decision.
  assert (Hfree : head (List.filter (op_is "free") [lat "alloc" "30"; lat "free" "20"])
                  = Some (lat "free" "20")) by by_decision.
  destruct (main_succeeds_on_well_formed_input np_mean_seq fs "in" "out"
              ["a.csv"; "b.csv"; "c.csv"]) as [Hexit Hart].
  - by_length.
  - unfold well_formed. fold all_data. rewrite Hlat, Hfrag, Hrss, Halloc, Hfree.
    split; [| split; [| split; [| split; [| split]]]].
    + intros row [= <-]. metrics_ok.
    + intros row [= <-]. metrics_ok.
    + repeat (apply List.Forall_cons; [intros _; parses |]). apply List.Forall_nil.
    + intros row v Hin Hv.
      repeat (apply elem_of_cons in Hin as [-> | Hin]);
        [| | apply elem_of_nil in Hin; contradiction];
        vm_compute in Hv; injection Hv as <-; vm_compute; eexists; reflexivity.
    + repeat (apply List.Forall_cons; [parses |]). apply List.Forall_nil.
    + intros row x [= <-] Hx. vm_compute in Hx. injection Hx as <-.
      vm_compute. reflexivity.
  - split; [exact Hexit |]. etransitivity; [exact Hart | vm_compute; reflexivity].
Defined.
